(** * Athena Brain Core: a shallow embedding and its verified properties

    The development follows the package layout of [athena_brain]:

    - [Py]: the fragment of Python the sources rely on (exceptions caught by
      [try ... except Exception], dictionaries with string keys, truthiness);
    - [Evolution]: the mistake-to-rule induction engine ([evolution.py]);
    - [Memory]: [MemoryManager] ([memory.py]);
    - [Personalization]: [PersonalizationEngine] ([personalization.py]);
    - [Core]: the [AthenaBrain] facade and the command-line front end
      ([core.py], [cli.py]).

    Every module states its definitions first and its theorems after them,
    and ends with a run of the definitions on concrete inputs. *)

From Stdlib Require Import ZArith QArith Lia Ascii String.
From stdpp Require Import gmap strings list fin_maps pretty.

#[local] Open Scope string_scope.
#[local] Open Scope Z_scope.

(* ===================================================================== *)
(** * The fragment of Python the sources rely on *)
(* ===================================================================== *)

Module Py.

(** An instance of [Exception], the class that [except Exception] catches:
    its class name and the message that [str(e)] yields. *)
Record Exception := mkException { exc_class : string; exc_message : string }.

Definition str (e : Exception) : string := exc_message e.

Inductive outcome (A : Type) : Type :=
  | Ret (a : A)
  | Raise (e : Exception).
Arguments Ret {A} a.
Arguments Raise {A} e.

#[global] Instance outcome_ret : MRet outcome := @Ret.
#[global] Instance outcome_bind : MBind outcome := λ A B k m,
  match m with
  | Ret a => k a
  | Raise e => Raise e
  end.

(** A list comprehension or [for] loop whose body may raise. *)
Fixpoint for_each {A B} (body : A → outcome B) (l : list A)
    : outcome (list B) :=
  match l with
  | [] => Ret []
  | x :: l' => y ← body x; ys ← for_each body l'; Ret (y :: ys)
  end.

(** Values that travel in payloads and returned dictionaries.  A float is
    modelled by the rational it denotes. *)
#[local] Unset Elimination Schemes.
Inductive value :=
  | VNone
  | VBool (b : bool)
  | VInt (z : Z)
  | VFloat (q : Q)
  | VStr (s : string)
  | VList (l : list value)
  | VDict (d : list (string * value)).
#[local] Set Elimination Schemes.

(** A dictionary with string keys, in insertion order. *)
Abbreviation dict := (list (string * value)).

Fixpoint dict_get (d : dict) (k : string) : option value :=
  match d with
  | [] => None
  | (k', v) :: d' => if decide (k' = k) then Some v else dict_get d' k
  end.

(** [d.get(k, dflt)] *)
Definition get (d : dict) (k : string) (dflt : value) : value :=
  default dflt (dict_get d k).

Definition keys (d : dict) : list string := d.*1.

(** Computations that talk to the outside: the requests made, in order, and
    the outcome. *)
Definition io (E A : Type) : Type := list E * outcome A.

Definition ret {E A} (a : A) : io E A := ([], Ret a).

Definition lift {E A} (m : outcome A) : io E A := ([], m).

(** A request [ev] to a collaborator that answers [r]. *)
Definition request {E A} (ev : E) (r : outcome A) : io E A := ([ev], r).

Definition bind {E A B} (m : io E A) (k : A → io E B) : io E B :=
  match m with
  | (log, Ret a) => let '(log', r) := k a in ((log ++ log')%list, r)
  | (log, Raise e) => (log, Raise e)
  end.

(** [try: body except Exception as e: handler e] *)
Definition try_except {E A} (body : io E A) (handler : Exception → io E A)
    : io E A :=
  match body with
  | (log, Ret a) => (log, Ret a)
  | (log, Raise e) => let '(log', r) := handler e in ((log ++ log')%list, r)
  end.

(** [s[i:j]] for [0 <= i <= j]; like Python, it stops at the end of [s]. *)
Definition slice (s : string) (i j : nat) : string := String.substring i (j - i) s.

Definition hex_digit (c : ascii) : option Z :=
  let n := Z.of_nat (nat_of_ascii c) in
  if bool_decide (48 ≤ n ≤ 57) then Some (n - 48)
  else if bool_decide (97 ≤ n ≤ 102) then Some (n - 87)
  else if bool_decide (65 ≤ n ≤ 70) then Some (n - 55)
  else None.

Fixpoint hex_value (acc : Z) (s : string) : option Z :=
  match s with
  | EmptyString => Some acc
  | String c s' =>
      match hex_digit c with
      | Some d => hex_value (16 * acc + d) s'
      | None => None
      end
  end.

(** [int(s, 16)] on a string of hexadecimal digits; an empty string or any
    other character raises [ValueError].  (Python also accepts a sign, a
    [0x] prefix, underscores and surrounding blanks, which a hexadecimal
    digest never contains.) *)
Definition int16 (s : string) : outcome Z :=
  match s with
  | EmptyString => Raise (mkException "ValueError" "invalid literal for int()")
  | _ =>
      match hex_value 0 s with
      | Some n => Ret n
      | None => Raise (mkException "ValueError" "invalid literal for int()")
      end
  end.

(** Truthiness, as [x or y] and [if x] test it. *)
Definition truthy (v : value) : bool :=
  match v with
  | VNone => false
  | VBool b => b
  | VInt z => negb (z =? 0)
  | VFloat q => negb (Qeq_bool q 0)
  | VStr s => negb (String.eqb s "")
  | VList l => match l with [] => false | _ => true end
  | VDict d => match d with [] => false | _ => true end
  end.

Definition type_name (v : value) : string :=
  match v with
  | VNone => "NoneType"
  | VBool _ => "bool"
  | VInt _ => "int"
  | VFloat _ => "float"
  | VStr _ => "str"
  | VList _ => "list"
  | VDict _ => "dict"
  end.

Definition is_dict (v : value) : bool :=
  match v with
  | VDict _ => true
  | _ => false
  end.

(** The method call [v.get(k, dflt)]: only a dictionary has the method. *)
Definition call_get (v : value) (k : string) (dflt : value) : outcome value :=
  match v with
  | VDict d => Ret (get d k dflt)
  | _ =>
      Raise (mkException "AttributeError"
               ("'" +:+ type_name v +:+ "' object has no attribute 'get'"))
  end.

(** What [hexdigest()] of an MD5 hash object looks like: 32 hexadecimal
    digits. *)
Definition is_hexdigest (s : string) : bool :=
  bool_decide (String.length s = 32%nat)
  && forallb (λ c, bool_decide (is_Some (hex_digit c)))
       (list_ascii_of_string s).

Lemma for_each_Ret {A B} (body : A → outcome B) l :
  ∀ ys, for_each body l = Ret ys → Forall2 (λ x y, body x = Ret y) l ys.
Proof.
  induction l as [|x l IH]; simpl; intros ys.
  - intros [= <-]. constructor.
  - unfold mbind, outcome_bind. destruct (body x) as [y|e] eqn:Hx; [|done].
    destruct (for_each body l) as [ys'|e]; [|done].
    intros [= <-]. constructor; auto.
Qed.

Lemma for_each_Raise {A B} (body : A → outcome B) l x e :
  x ∈ l → body x = Raise e → ∃ e', for_each body l = Raise e'.
Proof.
  intros Hin Hx. induction l as [|x' l IH]; [by apply elem_of_nil in Hin|].
  simpl. unfold mbind, outcome_bind.
  apply elem_of_cons in Hin as [<-|Hin].
  - rewrite Hx. eauto.
  - destruct (body x') as [y|e0]; [|eauto].
    destruct (IH Hin) as [e' ->]. eauto.
Qed.

Lemma hex_digit_range c d : hex_digit c = Some d → 0 ≤ d < 16.
Proof.
  unfold hex_digit. repeat case_bool_decide; intros [= <-]; lia.
Qed.

(** Two hexadecimal digits denote a byte. *)
Lemma int16_two_digits a b da db :
  hex_digit a = Some da → hex_digit b = Some db →
  int16 (String a (String b EmptyString)) = Ret (16 * da + db) ∧
  0 ≤ 16 * da + db ≤ 255.
Proof.
  intros Ha Hb. unfold int16, hex_value. rewrite Ha, Hb.
  apply hex_digit_range in Ha, Hb. split; [f_equal; lia|lia].
Qed.

End Py.

(* ===================================================================== *)
(** * The mistake-to-rule induction engine *)
(* ===================================================================== *)

Module Evolution.

(** ** Data model

    [core.py] imports [EvolutionEngine] from [evolution.py], a module that is
    not in the source tree.  The engine is therefore modelled from its
    specification; the facade that calls it is in [Core]. *)

(** Modelled from the spec: [MistakePattern] of section 3, kept by
    [evolution.py], which is not in the source tree. *)
Record MistakePattern := mkPattern {
  pattern_id : string;
  category : string;
  occurrences : nat;
  first_seen : Z;
  last_seen : Z;
  last_description : string;
  last_solution : string
}.

(** Modelled from the spec: the [status] of a [Rule], section 3. *)
Inductive RuleStatus := active | retired.

(** Modelled from the spec: [Rule] of section 3. *)
Record Rule := mkRule {
  rule_id : string;
  rule_pattern_id : string;
  rule_category : string;
  rule_text : string;
  created_at : Z;
  source_occurrence_count : nat;
  status : RuleStatus
}.

(** Modelled from the spec: [EvolutionState] of section 3, the persisted
    root of the ledger; [patterns] is keyed by [(pattern_id, category)] and
    [rules] by [rule_id]. *)
Record EvolutionState := mkState {
  patterns : gmap (string * string) MistakePattern;
  rules : gmap string Rule
}.

Definition empty_state : EvolutionState :=
  {| patterns := ∅; rules := ∅ |}.

(** Modelled from the spec: the errors of section 7.  A [ValidationError]
    is raised to the caller; a persistence failure is not raised but reported
    inside the result. *)
Inductive Failure := ValidationError (msg : string).

(** Modelled from the spec: [Result] of section 6. *)
Record Result := mkResult {
  tracked : bool;
  rule_generated : bool;
  result_occurrences : nat;
  rule : option Rule;
  error : option string
}.

Inductive Outcome :=
  | Rejected (e : Failure)
  | Returned (r : Result).

(** One [track_mistake] request, with the threshold already resolved. *)
Record Call := mkCall {
  call_pattern : string;
  call_description : string;
  call_solution : string;
  call_category : string;
  call_threshold : Z
}.

(** What the surroundings contribute to one call: the clock reading and, for
    the ledger's read and for its atomic write, how many consecutive attempts
    fail. *)
Record Env := mkEnv {
  now : Z;
  load_failures : nat;
  save_failures : nat
}.

(** Modelled from the spec: the configuration of section 6, which
    [core.py] hands to the engine as [config.get('evolution', {})]; an entry
    may be missing, and the threshold defaults to 2. *)
Record Config := mkConfig {
  auto_track : option bool;
  rule_threshold : option Z
}.

Definition configured_threshold (config : Config) : Z :=
  default 2 (rule_threshold config).

(** Modelled from the spec: the signature of [track_mistake] in section 6,
    [category = "general"] and [threshold = config.rule_threshold] when the
    caller omits them. *)
Definition request (config : Config) (pattern description solution : string)
    (category : option string) (threshold : option Z) : Call :=
  {| call_pattern := pattern;
     call_description := description;
     call_solution := solution;
     call_category := default "general" category;
     call_threshold := default (configured_threshold config) threshold |}.

Definition successful (o : Outcome) : bool :=
  match o with
  | Returned r => tracked r
  | Rejected _ => false
  end.

Definition generated (o : Outcome) : bool :=
  match o with
  | Returned r => rule_generated r
  | Rejected _ => false
  end.

Section Engine.

(** The spec fixes neither the derivation of a rule's identifier from
    [(pattern_id, category)] nor the layout of the canonical rule text; both
    are parameters of the engine. *)
Variable derive_rule_id : string → string → string.
Variable compose_rule_text : string → string → string → nat → string.

(** ** PatternAggregator *)

(** Modelled from the spec: [record] of section 4.1. *)
Definition record (st : EvolutionState) (t : Z)
    (pid cat desc sol : string) : Failure + MistakePattern * bool :=
  if decide (pid = "" ∨ cat = "") then
    inl (ValidationError "pattern_id and category must be non-empty")
  else
    match patterns st !! (pid, cat) with
    | None =>
        inr ({| pattern_id := pid; category := cat; occurrences := 1;
                first_seen := t; last_seen := t;
                last_description := desc; last_solution := sol |}, true)
    | Some p =>
        inr ({| pattern_id := pattern_id p; category := category p;
                occurrences := S (occurrences p);
                first_seen := first_seen p; last_seen := t;
                last_description := desc; last_solution := sol |}, false)
    end.

(** ** RuleSynthesizer *)

(** Modelled from the spec: [synthesize] of section 4.2, a composition of
    the category, the pattern identifier, the latest solution and the
    occurrence count. *)
Definition synthesize (p : MistakePattern) : string :=
  compose_rule_text (category p) (pattern_id p) (last_solution p)
    (occurrences p).

(** Modelled from the spec: the [Rule] that step 5 of section 4.4 inserts,
    with the fields of section 3. *)
Definition make_rule (p : MistakePattern) (t : Z) : Rule :=
  {| rule_id := derive_rule_id (pattern_id p) (category p);
     rule_pattern_id := pattern_id p;
     rule_category := category p;
     rule_text := synthesize p;
     created_at := t;
     source_occurrence_count := occurrences p;
     status := active |}.

(** ** RuleLedger *)

(** Modelled from the spec: [load] of section 4.3.  The persisted file is
    [None] while nothing was ever saved. *)
Definition load (disk : option EvolutionState) : EvolutionState :=
  default empty_state disk.

(** Modelled from the spec: [save] of section 4.3, which replaces the
    persisted file as a whole. *)
Definition save (st : EvolutionState) : option EvolutionState := Some st.

(** Modelled from the spec: [rule_exists] of section 4.3, by the
    deterministic [rule_id]. *)
Definition rule_exists (st : EvolutionState) (pid cat : string) : bool :=
  bool_decide (is_Some (rules st !! derive_rule_id pid cat)).

(** Modelled from the spec: a [PersistenceError] of section 7; a ledger
    operation is attempted and, when it fails, retried once. *)
Definition io_succeeds (failures : nat) : bool :=
  bool_decide (failures ≤ 1)%nat.

(** Modelled from the spec: the result that reports a persistence failure,
    section 7. *)
Definition degraded (msg : string) : Result :=
  {| tracked := false; rule_generated := false; result_occurrences := 0;
     rule := None; error := Some msg |}.

(** ** EvolutionEngine *)

(** Modelled from the spec: steps 3 to 6 of section 4.4 on a loaded state;
    the state to persist and the result to return. *)
Definition step (st : EvolutionState) (t : Z) (c : Call)
    : Failure + EvolutionState * Result :=
  match record st t (call_pattern c) (call_category c)
          (call_description c) (call_solution c) with
  | inl e => inl e
  | inr (p, _) =>
      let pats := <[(call_pattern c, call_category c) := p]> (patterns st) in
      if rule_exists st (call_pattern c) (call_category c) then
        inr ({| patterns := pats; rules := rules st |},
             {| tracked := true; rule_generated := false;
                result_occurrences := occurrences p;
                rule := None; error := None |})
      else if bool_decide (call_threshold c ≤ Z.of_nat (occurrences p)) then
        let r := make_rule p t in
        inr ({| patterns := pats; rules := <[rule_id r := r]> (rules st) |},
             {| tracked := true; rule_generated := true;
                result_occurrences := occurrences p;
                rule := Some r; error := None |})
      else
        inr ({| patterns := pats; rules := rules st |},
             {| tracked := true; rule_generated := false;
                result_occurrences := occurrences p;
                rule := None; error := None |})
  end.

(** Modelled from the spec: [EvolutionEngine.track_mistake] of section 4.4.
    It maps the persisted file before the call to the persisted file after
    it and the outcome. *)
Definition track_mistake (disk : option EvolutionState) (env : Env) (c : Call)
    : option EvolutionState * Outcome :=
  if decide (call_pattern c = "" ∨ call_description c = "" ∨
             call_solution c = "" ∨ call_threshold c < 1) then
    (disk, Rejected (ValidationError "invalid input"))
  else if negb (io_succeeds (load_failures env)) then
    (disk, Returned (degraded "ledger read failed"))
  else
    match step (load disk) (now env) c with
    | inl e => (disk, Rejected e)
    | inr (st', res) =>
        if io_succeeds (save_failures env) then (save st', Returned res)
        else (disk, Returned (degraded "ledger write failed"))
    end.

(** Modelled from the spec: [get_pattern_stats] of section 6. *)
Definition get_pattern_stats (disk : option EvolutionState)
    (pid cat : string) : option MistakePattern :=
  patterns (load disk) !! (pid, cat).

(** A sequence of calls, each with its own environment. *)
Fixpoint run (disk : option EvolutionState) (cs : list (Env * Call))
    : option EvolutionState * list Outcome :=
  match cs with
  | [] => (disk, [])
  | (env, c) :: cs' =>
      let '(disk1, o) := track_mistake disk env c in
      let '(disk2, os) := run disk1 cs' in
      (disk2, o :: os)
  end.

Definition occurrences_of (disk : option EvolutionState)
    (k : string * string) : nat :=
  from_option occurrences 0%nat (patterns (load disk) !! k).

(** ** Equations of the engine's steps *)

Lemma record_inr st t pid cat desc sol p b :
  record st t pid cat desc sol = inr (p, b) →
  pid ≠ "" ∧ cat ≠ "" ∧
  occurrences p
    = S (from_option occurrences 0%nat (patterns st !! (pid, cat))) ∧
  last_seen p = t ∧ last_description p = desc ∧ last_solution p = sol ∧
  match patterns st !! (pid, cat) with
  | None => pattern_id p = pid ∧ category p = cat ∧ first_seen p = t
  | Some q =>
      pattern_id p = pattern_id q ∧ category p = category q ∧
      first_seen p = first_seen q
  end.
Proof.
  unfold record. intros H.
  destruct (decide (pid = "" ∨ cat = "")) as [|Hne]; [discriminate|].
  assert (pid ≠ "" ∧ cat ≠ "") as [? ?] by (split; intros ->; apply Hne; auto).
  destruct (patterns st !! (pid, cat)) as [q|];
    inversion H; subst; simpl; auto 10.
Qed.

Lemma step_inr st t c st' res :
  step st t c = inr (st', res) →
  ∃ p b,
    record st t (call_pattern c) (call_category c)
      (call_description c) (call_solution c) = inr (p, b) ∧
    patterns st' = <[(call_pattern c, call_category c) := p]> (patterns st) ∧
    tracked res = true ∧ error res = None ∧
    result_occurrences res = occurrences p ∧
    rule_generated res
      = negb (rule_exists st (call_pattern c) (call_category c))
        && bool_decide (call_threshold c ≤ Z.of_nat (occurrences p)) ∧
    (rule_generated res = true →
       rules st'
         = <[derive_rule_id (pattern_id p) (category p) := make_rule p t]>
             (rules st) ∧
       rule res = Some (make_rule p t)) ∧
    (rule_generated res = false → rules st' = rules st ∧ rule res = None).
Proof.
  unfold step. intros H.
  destruct (record st t _ _ _ _) as [e|[p b]]; [discriminate|].
  exists p, b. split; [reflexivity|].
  destruct (rule_exists st _ _); simpl in *.
  - inversion H; subst; simpl. repeat split; auto; discriminate.
  - destruct (bool_decide (call_threshold c ≤ Z.of_nat (occurrences p)));
      inversion H; subst; simpl; repeat split; auto; discriminate.
Qed.

Lemma track_mistake_successful disk env c :
  successful (track_mistake disk env c).2 = true →
  ∃ st' res,
    step (load disk) (now env) c = inr (st', res) ∧
    track_mistake disk env c = (Some st', Returned res) ∧
    1 ≤ call_threshold c.
Proof.
  unfold track_mistake.
  destruct (decide _) as [|Hv]; [discriminate|].
  destruct (io_succeeds (load_failures env)); [|discriminate]. simpl.
  destruct (step _ _ _) as [e|[st' res]]; [discriminate|].
  destruct (io_succeeds (save_failures env)); [|discriminate].
  intros _. exists st', res. repeat split; auto.
  destruct (decide (1 ≤ call_threshold c)); [done|].
  exfalso. apply Hv. do 3 right. lia.
Qed.

Lemma track_mistake_unsuccessful disk env c :
  successful (track_mistake disk env c).2 = false →
  (track_mistake disk env c).1 = disk.
Proof.
  unfold track_mistake.
  destruct (decide _); [done|].
  destruct (io_succeeds (load_failures env)); [|done]. simpl.
  destruct (step _ _ _) as [e|[st' res]] eqn:Hs; [done|].
  destruct (io_succeeds (save_failures env)); [|done]. simpl.
  apply step_inr in Hs as (p & b & _ & _ & -> & _). discriminate.
Qed.

Lemma run_cons disk env c cs :
  run disk ((env, c) :: cs)
  = ((run (track_mistake disk env c).1 cs).1,
     (track_mistake disk env c).2 :: (run (track_mistake disk env c).1 cs).2).
Proof.
  simpl. destruct (track_mistake disk env c) as [d o]. simpl.
  destruct (run d cs). reflexivity.
Qed.

(** ** Occurrence counts *)

Lemma occurrences_of_track_mistake disk env c k :
  (occurrences_of disk k
     ≤ occurrences_of (track_mistake disk env c).1 k)%nat.
Proof.
  destruct (successful (track_mistake disk env c).2) eqn:Hs.
  - destruct (track_mistake_successful _ _ _ Hs)
      as (st' & res & Hstep & -> & _).
    apply step_inr in Hstep as (p & b & Hrec & Hpats & _).
    apply record_inr in Hrec as (_ & _ & Hp & _).
    unfold occurrences_of. simpl. rewrite Hpats.
    destruct (decide (k = (call_pattern c, call_category c))) as [->|Hk].
    + rewrite lookup_insert_eq. simpl. lia.
    + rewrite lookup_insert_ne by done. lia.
  - by rewrite (track_mistake_unsuccessful _ _ _ Hs).
Qed.

Lemma occurrences_of_run cs k :
  ∀ disk, (occurrences_of disk k ≤ occurrences_of (run disk cs).1 k)%nat.
Proof.
  induction cs as [|[env c] cs IH]; intros disk; [done|].
  rewrite run_cons. simpl.
  etrans; [apply (occurrences_of_track_mistake disk env c)|apply IH].
Qed.

(** C3: the occurrence count of every pattern never decreases over a
    [track_mistake] call, whatever its outcome, nor over any sequence of
    calls; a successful call adds exactly one to the count of the pattern it
    names, reports the new count, and creates a never-seen pattern with one
    occurrence, first and last seen at the time of the call. *)
Theorem occurrences_grow_by_one disk env c k :
  (occurrences_of disk k
     ≤ occurrences_of (track_mistake disk env c).1 k)%nat ∧
  (∀ cs, occurrences_of disk k ≤ occurrences_of (run disk cs).1 k)%nat ∧
  (successful (track_mistake disk env c).2 = true →
     let key := (call_pattern c, call_category c) in
     let disk' := (track_mistake disk env c).1 in
     occurrences_of disk' key = S (occurrences_of disk key) ∧
     (∃ r, (track_mistake disk env c).2 = Returned r ∧
           result_occurrences r = occurrences_of disk' key) ∧
     (k ≠ key → occurrences_of disk' k = occurrences_of disk k) ∧
     (get_pattern_stats disk (call_pattern c) (call_category c) = None →
        ∃ p, get_pattern_stats disk' (call_pattern c) (call_category c)
               = Some p ∧
             occurrences p = 1%nat ∧
             first_seen p = now env ∧ last_seen p = now env)).
Proof.
  split; [apply occurrences_of_track_mistake|].
  split; [intros cs; apply occurrences_of_run|].
  intros Hs.
  destruct (track_mistake_successful _ _ _ Hs)
    as (st' & res & Hstep & Htm & _).
  apply step_inr in Hstep as (p & b & Hrec & Hpats & _ & _ & Hocc & _).
  apply record_inr in Hrec as (_ & _ & Hp & Hls & _ & _ & Hids).
  rewrite Htm. unfold occurrences_of, get_pattern_stats. simpl.
  rewrite Hpats, lookup_insert_eq. simpl.
  split; [exact Hp|]. split; [eauto|]. split.
  - intros Hk. by rewrite lookup_insert_ne.
  - intros Hnone. rewrite Hnone in Hp, Hids. simpl in Hp.
    destruct Hids as (_ & _ & Hfs). exists p. by rewrite Hls, Hfs.
Qed.

(** ** Fail-atomicity *)

(** C4: a call with an empty [pattern_id], [description] or [solution], or
    with a threshold below one, is rejected with a [ValidationError] and
    leaves the persisted state as it was; and every call either succeeds,
    persisting exactly the state computed by the engine's step and returning
    its result, or does not succeed and leaves the persisted state identical
    to the one before the call. *)
Theorem track_mistake_fail_atomic disk env c :
  ((call_pattern c = "" ∨ call_description c = "" ∨
    call_solution c = "" ∨ call_threshold c < 1) →
   ∃ msg, track_mistake disk env c = (disk, Rejected (ValidationError msg))) ∧
  ((successful (track_mistake disk env c).2 = true ∧
    ∃ st' res, step (load disk) (now env) c = inr (st', res) ∧
               track_mistake disk env c = (save st', Returned res)) ∨
   (successful (track_mistake disk env c).2 = false ∧
    (track_mistake disk env c).1 = disk)).
Proof.
  split.
  - intros Hbad. unfold track_mistake.
    destruct (decide _) as [|Hv]; [eauto|]. by destruct Hv.
  - destruct (successful (track_mistake disk env c).2) eqn:Hs.
    + left. split; [done|].
      destruct (track_mistake_successful _ _ _ Hs) as (st' & res & ? & ? & _).
      by exists st', res.
    + right. split; [done|]. by apply track_mistake_unsuccessful.
Qed.

(** ** The one-shot trigger *)

Definition targets (pid cat : string) (T : Z) (ec : Env * Call) : Prop :=
  call_pattern ec.2 = pid ∧ call_category ec.2 = cat ∧
  call_threshold ec.2 = T.

Lemma same_key_run pid cat T cs :
  1 ≤ T → ∀ disk n,
  occurrences_of disk (pid, cat) = n →
  (∀ p, patterns (load disk) !! (pid, cat) = Some p →
        pattern_id p = pid ∧ category p = cat) →
  rule_exists (load disk) pid cat = bool_decide (T ≤ Z.of_nat n) →
  Forall (targets pid cat T) cs →
  Forall (λ o, successful o = true) (run disk cs).2 →
  ∀ i o, (run disk cs).2 !! i = Some o →
         generated o = bool_decide (Z.of_nat (n + S i) = T).
Proof.
  intros HT. induction cs as [|[env c] cs IH];
    intros disk n Hn Hids Hex Hcs Hok i o Hi; [done|].
  rewrite run_cons in Hok, Hi. simpl in Hok, Hi.
  apply Forall_cons in Hcs as [(Hp & Hc & Hthr) Hcs]. simpl in Hp, Hc, Hthr.
  apply Forall_cons in Hok as [Hs Hok].
  destruct (track_mistake_successful _ _ _ Hs)
    as (st' & res & Hstep & Htm & _).
  rewrite Htm in Hok, Hi. simpl in Hok, Hi.
  apply step_inr in Hstep
    as (p & b & Hrec & Hpats & _ & _ & _ & Hgen & Hyes & Hno).
  apply record_inr in Hrec as (_ & _ & Hp1 & _ & _ & _ & Hq).
  rewrite Hp, Hc, Hthr in *.
  unfold occurrences_of in Hn. rewrite Hn in Hp1.
  assert (pattern_id p = pid ∧ category p = cat) as [Hpid Hcat].
  { destruct (patterns (load disk) !! (pid, cat)) as [q|] eqn:Hl.
    - destruct (Hids q eq_refl) as [<- <-]. tauto.
    - tauto. }
  rewrite Hex, Hp1 in Hgen.
  destruct i as [|i]; simpl in Hi.
  - inversion Hi; subst o. simpl. rewrite Hgen.
    repeat case_bool_decide; simpl; try reflexivity; lia.
  - replace (n + S (S i))%nat with (S n + S i)%nat by lia.
    apply (IH (Some st') (S n)); auto.
    + unfold occurrences_of. simpl. rewrite Hpats, lookup_insert_eq. done.
    + simpl. rewrite Hpats, lookup_insert_eq. by intros ? [= <-].
    + unfold rule_exists in *. simpl.
      destruct (rule_generated res) eqn:Hg.
      * destruct (Hyes eq_refl) as [-> _]. rewrite Hpid, Hcat.
        rewrite lookup_insert_eq.
        symmetry in Hgen. apply andb_true_iff in Hgen as [_ Hle].
        apply bool_decide_eq_true in Hle.
        rewrite !bool_decide_eq_true_2; eauto; lia.
      * destruct (Hno eq_refl) as [-> _]. rewrite Hex.
        symmetry in Hgen. apply andb_false_iff in Hgen as [Hle|Hle].
        -- apply negb_false_iff, bool_decide_eq_true in Hle.
           rewrite !bool_decide_eq_true_2; auto; lia.
        -- apply bool_decide_eq_false in Hle.
           rewrite !bool_decide_eq_false_2; auto; lia.
Qed.

(** C1: from a ledger in which the pattern is unseen and has no rule, any
    sequence of successful calls for the same [(pattern_id, category)] with
    the same threshold [T >= 1] reports [rule_generated] on its T-th call and
    on no other: not on the [T-1] calls before it and never again after it. *)
Theorem rule_generated_exactly_on_threshold_call disk pid cat T cs :
  1 ≤ T →
  get_pattern_stats disk pid cat = None →
  rule_exists (load disk) pid cat = false →
  Forall (targets pid cat T) cs →
  Forall (λ o, successful o = true) (run disk cs).2 →
  ∀ i o, (run disk cs).2 !! i = Some o →
         generated o = bool_decide (Z.of_nat (S i) = T).
Proof.
  intros HT Hnew Hrule Hcs Hok i o Hi.
  apply (same_key_run pid cat T cs HT disk 0%nat); auto.
  - unfold occurrences_of. unfold get_pattern_stats in Hnew. by rewrite Hnew.
  - unfold get_pattern_stats in Hnew. rewrite Hnew. discriminate.
  - rewrite Hrule. symmetry. apply bool_decide_eq_false_2. lia.
Qed.

(** ** One rule per pattern *)

(** Every stored pattern sits under its own [(pattern_id, category)]; every
    stored rule sits under its own identifier, which is the one derived from
    its back-reference, and the pattern it refers to is stored. *)
Definition well_keyed (st : EvolutionState) : Prop :=
  (∀ k p, patterns st !! k = Some p → (pattern_id p, category p) = k) ∧
  (∀ id r, rules st !! id = Some r →
     rule_id r = id ∧
     id = derive_rule_id (rule_pattern_id r) (rule_category r) ∧
     is_Some (patterns st !! (rule_pattern_id r, rule_category r))).

Lemma well_keyed_empty : well_keyed empty_state.
Proof. split; simpl; intros ? ?; by rewrite lookup_empty. Qed.

Lemma well_keyed_step st t c st' res :
  well_keyed st → step st t c = inr (st', res) → well_keyed st'.
Proof.
  intros [Hpat Hrul] Hstep.
  apply step_inr in Hstep as (p & b & Hrec & Hpats & _ & _ & _ & _ & Hyes & Hno).
  apply record_inr in Hrec as (_ & _ & _ & _ & _ & _ & Hq).
  assert ((pattern_id p, category p) = (call_pattern c, call_category c))
    as Hkey.
  { destruct (patterns st !! (call_pattern c, call_category c)) as [q|] eqn:Hl.
    - destruct Hq as (-> & -> & _). by apply Hpat.
    - by destruct Hq as (-> & -> & _). }
  assert (∀ k, is_Some (patterns st !! k) → is_Some (patterns st' !! k))
    as Hmono.
  { intros k Hk. rewrite Hpats.
    destruct (decide ((call_pattern c, call_category c) = k)) as [->|].
    - rewrite lookup_insert_eq. eauto.
    - by rewrite lookup_insert_ne. }
  split.
  - intros k q. rewrite Hpats.
    destruct (decide ((call_pattern c, call_category c) = k)) as [<-|].
    + rewrite lookup_insert_eq. by intros [= <-].
    + rewrite lookup_insert_ne by done. apply Hpat.
  - intros id r. destruct (rule_generated res).
    + destruct (Hyes eq_refl) as [-> _].
      destruct (decide (derive_rule_id (pattern_id p) (category p) = id))
        as [<-|].
      * rewrite lookup_insert_eq. intros [= <-]. simpl.
        repeat split; auto. rewrite Hkey, Hpats, lookup_insert_eq. eauto.
      * rewrite lookup_insert_ne by done. intros Hr.
        destruct (Hrul _ _ Hr) as (? & ? & ?). auto.
    + destruct (Hno eq_refl) as [-> _]. intros Hr.
      destruct (Hrul _ _ Hr) as (? & ? & ?). auto.
Qed.

Lemma well_keyed_track_mistake disk env c :
  well_keyed (load disk) → well_keyed (load (track_mistake disk env c).1).
Proof.
  intros Hwk. destruct (successful (track_mistake disk env c).2) eqn:Hs.
  - destruct (track_mistake_successful _ _ _ Hs)
      as (st' & res & Hstep & -> & _).
    simpl. eapply well_keyed_step; eauto.
  - by rewrite (track_mistake_unsuccessful _ _ _ Hs).
Qed.

Lemma well_keyed_run cs :
  ∀ disk, well_keyed (load disk) → well_keyed (load (run disk cs).1).
Proof.
  induction cs as [|[env c] cs IH]; intros disk Hwk; [done|].
  rewrite run_cons. simpl. by apply IH, well_keyed_track_mistake.
Qed.

(** C2: in every state reached from the empty ledger by [track_mistake]
    calls, two stored rules that refer to the same [(pattern_id, category)]
    are one and the same rule; no further call replaces or modifies a stored
    rule; and a further call for a pattern that has a rule leaves all rules
    and all other patterns as they are and keeps the identity and
    [first_seen] of that pattern, so that only its evidence fields can
    change. *)
Theorem one_rule_per_pattern cs :
  let disk := (run None cs).1 in
  (∀ id1 id2 r1 r2,
     rules (load disk) !! id1 = Some r1 →
     rules (load disk) !! id2 = Some r2 →
     rule_pattern_id r1 = rule_pattern_id r2 →
     rule_category r1 = rule_category r2 →
     id1 = id2 ∧ r1 = r2) ∧
  (∀ env c id r,
     rules (load disk) !! id = Some r →
     let disk' := (track_mistake disk env c).1 in
     rules (load disk') !! id = Some r ∧
     (rule_pattern_id r = call_pattern c →
      rule_category r = call_category c →
      rules (load disk') = rules (load disk) ∧
      (∀ k, k ≠ (call_pattern c, call_category c) →
            patterns (load disk') !! k = patterns (load disk) !! k) ∧
      ∃ p p',
        patterns (load disk) !! (call_pattern c, call_category c) = Some p ∧
        patterns (load disk') !! (call_pattern c, call_category c) = Some p' ∧
        pattern_id p' = pattern_id p ∧ category p' = category p ∧
        first_seen p' = first_seen p)).
Proof.
  intros disk.
  assert (well_keyed (load disk)) as [Hpat Hrul]
    by apply well_keyed_run, well_keyed_empty.
  split.
  - intros id1 id2 r1 r2 H1 H2 Hp Hc.
    destruct (Hrul _ _ H1) as (_ & E1 & _).
    destruct (Hrul _ _ H2) as (_ & E2 & _).
    assert (id1 = id2) as <- by (rewrite E1, E2, Hp, Hc; reflexivity).
    split; [done|congruence].
  - intros env c id r Hr disk'. subst disk'.
    destruct (Hrul _ _ Hr) as (_ & Eid & [q Hq]).
    destruct (successful (track_mistake disk env c).2) eqn:Hs.
    + destruct (track_mistake_successful _ _ _ Hs)
        as (st' & res & Hstep & -> & _). simpl.
      apply step_inr in Hstep
        as (p & b & Hrec & Hpats & _ & _ & _ & Hgen & Hyes & Hno).
      apply record_inr in Hrec as (_ & _ & _ & _ & _ & _ & Hids).
      split.
      * destruct (rule_generated res); [|by destruct (Hno eq_refl) as [-> _]].
        destruct (Hyes eq_refl) as [-> _].
        symmetry in Hgen. apply andb_true_iff in Hgen as [Hnex _].
        apply negb_true_iff, bool_decide_eq_false in Hnex.
        rewrite lookup_insert_ne; [done|]. intros E. apply Hnex.
        assert ((pattern_id p, category p)
                = (call_pattern c, call_category c)) as [= Ep Ec].
        { destruct (patterns (load disk) !! (call_pattern c, call_category c))
            as [q'|] eqn:Hl.
          - destruct Hids as (-> & -> & _). by apply Hpat.
          - by destruct Hids as (-> & -> & _). }
        rewrite <- Ep, <- Ec, E. eauto.
      * intros Ep Ec. rewrite Ep, Ec in Eid, Hq.
        unfold rule_exists in Hgen. rewrite <- Eid, Hr in Hgen.
        rewrite bool_decide_eq_true_2 in Hgen by eauto. simpl in Hgen.
        destruct (Hno Hgen) as [-> _]. split; [done|]. split.
        -- intros k Hk. rewrite Hpats. by rewrite lookup_insert_ne.
        -- rewrite Hq in Hids. exists q, p.
           rewrite Hpats, lookup_insert_eq. tauto.
    + rewrite (track_mistake_unsuccessful _ _ _ Hs). split; [done|].
      intros Ep Ec. rewrite Ep, Ec in Hq. split; [done|]. split; [done|].
      exists q, q. auto.
Qed.

End Engine.

(** ** The scenarios of section 8 *)

(** One concrete choice of the two derivations the spec leaves open, to run
    the engine on the scenarios. *)
Definition example_rule_id (pid cat : string) : string :=
  cat +:+ "/" +:+ pid.

Definition example_rule_text (cat pid sol : string) (n : nat) : string :=
  "[" +:+ cat +:+ "] " +:+ pid +:+ ": " +:+ sol
  +:+ " (seen " +:+ pretty n +:+ " times)".

Definition at_time (t : Z) : Env :=
  {| now := t; load_failures := 0; save_failures := 0 |}.

Definition scenario_calls : list (Env * Call) :=
  [ (at_time 10, mkCall "p1" "desc1" "fix1" "general" 2);
    (at_time 20, mkCall "p1" "desc2" "fix2" "general" 2);
    (at_time 30, mkCall "p1" "desc3" "fix3" "general" 2) ].

Definition summary (o : Outcome) : option (bool * bool * nat) :=
  match o with
  | Returned r => Some (tracked r, rule_generated r, result_occurrences r)
  | Rejected _ => None
  end.

Example scenarios_1_to_3 :
  summary <$> (run example_rule_id example_rule_text None scenario_calls).2
  = [Some (true, false, 1%nat); Some (true, true, 2%nat);
     Some (true, false, 3%nat)].
Proof. vm_compute. reflexivity. Qed.

Example scenario_2_rule :
  rule <$> (match (run example_rule_id example_rule_text None
                      scenario_calls).2 !! 1%nat with
            | Some (Returned r) => Some r
            | _ => None
            end)
  = Some (Some {| rule_id := "general/p1"; rule_pattern_id := "p1";
                  rule_category := "general";
                  rule_text := "[general] p1: fix2 (seen 2 times)";
                  created_at := 20; source_occurrence_count := 2;
                  status := active |}).
Proof. vm_compute. reflexivity. Qed.

Example scenario_4 :
  (λ p, (occurrences p, last_description p))
    <$> get_pattern_stats
          (run example_rule_id example_rule_text None scenario_calls).1
          "p1" "general"
  = Some (3%nat, "desc3").
Proof. vm_compute. reflexivity. Qed.

Example scenario_5 :
  summary (track_mistake example_rule_id example_rule_text None (at_time 40)
             (mkCall "p2" "d" "s" "critical" 1)).2
  = Some (true, true, 1%nat).
Proof. vm_compute. reflexivity. Qed.

Example scenario_write_failure :
  track_mistake example_rule_id example_rule_text None
    {| now := 40; load_failures := 0; save_failures := 2 |}
    (mkCall "p2" "d" "s" "critical" 1)
  = (None, Returned (degraded "ledger write failed")).
Proof. vm_compute. reflexivity. Qed.

(** The second of the three scenario calls, and only it, generates a rule. *)
Lemma rule_generated_exactly_on_threshold_call_witness :
  ∃ o, (run example_rule_id example_rule_text None scenario_calls).2 !! 1%nat
       = Some o ∧
       generated o = bool_decide (Z.of_nat 2 = 2).
Proof.
  eexists. split; [vm_compute; reflexivity|].
  apply (rule_generated_exactly_on_threshold_call
           example_rule_id example_rule_text None "p1" "general" 2
           scenario_calls).
  - lia.
  - reflexivity.
  - reflexivity.
  - repeat constructor.
  - vm_compute. repeat constructor.
  - vm_compute. reflexivity.
Defined.

End Evolution.

(* ===================================================================== *)
(** * MemoryManager: long-term memory on a vector database *)
(* ===================================================================== *)

Module Memory.
Import Py.

(** ** What travels between the manager and the Qdrant client *)

Inductive Distance := COSINE.

Record VectorParams := mkVectorParams { size : Z; distance : Distance }.

Record PointStruct := mkPoint {
  point_id : string;
  vector : list Q;
  payload : dict
}.

Record FieldCondition := mkFieldCondition { key : string; match_value : string }.

Record Filter := mkFilter { must : list FieldCondition }.

(** One hit of a search; the payload of a point may be absent. *)
Record ScoredPoint := mkScoredPoint {
  hit_id : value;
  hit_score : Q;
  hit_payload : option dict
}.

(** The requests the manager makes, and what it prints. *)
Inductive Event :=
  | GetCollections
  | CreateCollection (name : string) (params : VectorParams)
  | Upsert (name : string) (points : list PointStruct)
  | Search (name : string) (query_vector : list Q) (limit : Z)
      (query_filter : option Filter)
  | Print (line : string).

Record MemoryManager := mkMemoryManager {
  qdrant_url : string;
  collection_name : string;
  embedding_model : option (string → outcome (list Q));
  embedding_dimension : Z
}.

(** What one [store] draws from its surroundings: [uuid.uuid4()] and
    [datetime.now().isoformat()]. *)
Record Env := mkEnv { uuid4 : string; now_iso : string }.

Section Manager.

(** The collaborators: the Qdrant client's answers to the requests, any of
    which may raise, and [hashlib.md5(s.encode()).hexdigest()]. *)
Variable client_get_collections : outcome (list string).
Variable client_create_collection : string → VectorParams → outcome unit.
Variable client_upsert : string → list PointStruct → outcome unit.
Variable client_search :
  string → list Q → Z → option Filter → outcome (list ScoredPoint).
Variable md5_hexdigest : string → string.

(** [__init__]: [loaded] is the outcome of loading the sentence
    transformer. *)
Definition init (url : option string) (name : option string)
    (loaded : outcome (string → outcome (list Q))) : io Event MemoryManager :=
  let url := default "http://localhost:6333" url in
  let name := default "athena_memories" name in
  match loaded with
  | Ret model =>
      ret {| qdrant_url := url; collection_name := name;
             embedding_model := Some model; embedding_dimension := 384 |}
  | Raise e =>
      bind (request (Print ("⚠️ Failed to load embedding model: " +:+ str e))
              (Ret ()))
        (λ _, ret {| qdrant_url := url; collection_name := name;
                     embedding_model := None; embedding_dimension := 384 |})
  end.

Definition init_collection (self : MemoryManager) : io Event unit :=
  try_except
    (bind (request GetCollections client_get_collections) (λ collection_names,
     if decide (collection_name self ∈ collection_names) then
       request (Print ("✅ Collection already exists: " +:+ collection_name self))
         (Ret ())
     else
       let params := {| size := embedding_dimension self;
                        distance := COSINE |} in
       bind (request (CreateCollection (collection_name self) params)
               (client_create_collection (collection_name self) params))
         (λ _, request
                 (Print ("✅ Created collection: " +:+ collection_name self))
                 (Ret ()))))
    (λ e, bind (request (Print ("❌ Failed to initialize collection: " +:+ str e))
                  (Ret ()))
            (λ _, lift (Raise e))).

(** The fallback of [store] and of [search] when no model is loaded:
[[
  hash_obj = hashlib.md5(content.encode())
  embedding = [float(int(hash_obj.hexdigest()[i:i+2], 16)) / 255.0
               for i in range(0, min(384, len(hash_obj.hexdigest()), 2))]
  embedding = embedding + [0.0] * (384 - len(embedding))
]]
    The upper end of the range is the least of the three arguments of
    [min]. *)
Definition fallback_embedding (content : string) : outcome (list Q) :=
  let hexdigest := md5_hexdigest content in
  let stop := Z.min (Z.min 384 (Z.of_nat (String.length hexdigest))) 2 in
  embedding ← for_each
                 (λ i, n ← int16 (slice hexdigest i (i + 2));
                       Ret (inject_Z n / 255)%Q)
                 (seq 0 (Z.to_nat stop));
  Ret (embedding
       ++ replicate (Z.to_nat (384 - Z.of_nat (length embedding))) 0%Q)%list.

(** The first statement of the [try] block of [store] and of [search]. *)
Definition embed (self : MemoryManager) (text : string) : outcome (list Q) :=
  match embedding_model self with
  | Some model => model text
  | None => fallback_embedding text
  end.

Definition stored (point_id : string) : dict :=
  [("success", VBool true); ("id", VStr point_id);
   ("message", VStr "Memory stored successfully")].

Definition not_stored (e : Exception) : dict :=
  [("success", VBool false); ("error", VStr (str e))].

Definition store_body (self : MemoryManager) (env : Env) (content : string)
    (category : string) (tags : option (list string))
    (metadata : option dict) : io Event dict :=
  bind (lift (embed self content)) (λ embedding,
  let point_id := uuid4 env in
  let point :=
    {| point_id := point_id;
       vector := embedding;
       payload := [("content", VStr content);
                   ("category", VStr category);
                   ("tags", VList (VStr <$> default [] tags));
                   ("metadata", VDict (default [] metadata));
                   ("timestamp", VStr (now_iso env))] |} in
  bind (request (Upsert (collection_name self) [point])
          (client_upsert (collection_name self) [point]))
    (λ _, ret (stored point_id))).

Definition store (self : MemoryManager) (env : Env) (content : string)
    (category : string) (tags : option (list string))
    (metadata : option dict) : io Event dict :=
  try_except (store_body self env content category tags metadata)
    (λ e, ret (not_stored e)).

(** The dictionary built from one hit; [result.payload.get] on an absent
    payload raises [AttributeError]. *)
Definition format_result (result : ScoredPoint) : outcome dict :=
  match hit_payload result with
  | None =>
      Raise (mkException "AttributeError"
               "'NoneType' object has no attribute 'get'")
  | Some p =>
      Ret [("id", hit_id result);
           ("score", VFloat (hit_score result));
           ("content", get p "content" (VStr ""));
           ("category", get p "category" (VStr ""));
           ("tags", get p "tags" (VList []));
           ("metadata", get p "metadata" (VDict []));
           ("timestamp", get p "timestamp" (VStr ""))]
  end.

(** The filter block of [search]: [None] and the empty string are falsy. *)
Definition build_filter (category : option string) : option Filter :=
  match category with
  | Some c =>
      if decide (c = "") then None
      else Some {| must := [{| key := "category"; match_value := c |}] |}
  | None => None
  end.

Definition search_body (self : MemoryManager) (query : string) (limit : Z)
    (category : option string) : io Event (list dict) :=
  bind (lift (embed self query)) (λ query_embedding,
  let query_filter := build_filter category in
  bind (request
          (Search (collection_name self) query_embedding limit query_filter)
          (client_search (collection_name self) query_embedding limit
             query_filter))
    (λ results, lift (for_each format_result results))).

Definition search (self : MemoryManager) (query : string) (limit : Z)
    (category : option string) : io Event (list dict) :=
  try_except (search_body self query limit category)
    (λ e, bind (request (Print ("❌ Search failed: " +:+ str e)) (Ret ()))
            (λ _, ret [])).

(** ** [store] and [search] never raise *)

Definition result_fields : list string :=
  ["id"; "score"; "content"; "category"; "tags"; "metadata"; "timestamp"].

Lemma try_except_returns {E A} (body : io E A) handler :
  (∀ e, ∃ log a, handler e = (log, Ret a)) →
  ∃ log a, try_except body handler = (log, Ret a).
Proof.
  intros Hh. destruct body as [log [a|e]]; simpl; [eauto|].
  destruct (Hh e) as (log' & a & ->). eauto.
Qed.

Lemma store_body_ret self env content category tags metadata d :
  (store_body self env content category tags metadata).2 = Ret d →
  d = stored (uuid4 env).
Proof.
  unfold store_body, bind, lift, request, ret.
  destruct (embed self content) as [v|e]; [|discriminate].
  destruct (client_upsert _ _) as [[]|e]; simpl; [|discriminate].
  by intros [= <-].
Qed.

(** C7: [store] always returns a dictionary and never raises.  When the
    [try] block runs through, the dictionary holds [success = True], the
    identifier of the new point and a message; when a step of the block
    raises [e], it holds [success = False] and [error = str(e)]. *)
Theorem store_returns_a_record self env content category tags metadata :
  ∃ log d,
    store self env content category tags metadata = (log, Ret d) ∧
    ((store_body self env content category tags metadata).2 = Ret d ∧
     keys d = ["success"; "id"; "message"] ∧
     dict_get d "success" = Some (VBool true) ∧
     dict_get d "id" = Some (VStr (uuid4 env)) ∧
     dict_get d "message" = Some (VStr "Memory stored successfully")
     ∨
     ∃ e, (store_body self env content category tags metadata).2 = Raise e ∧
          keys d = ["success"; "error"] ∧
          dict_get d "success" = Some (VBool false) ∧
          dict_get d "error" = Some (VStr (str e))).
Proof.
  unfold store.
  destruct (store_body self env content category tags metadata)
    as [log [d|e]] eqn:Hb; simpl.
  - exists log, d. split; [done|]. left.
    assert (d = stored (uuid4 env)) as ->
      by (eapply store_body_ret; by rewrite Hb).
    by repeat split.
  - exists (log ++ [])%list, (not_stored e). split; [done|]. right.
    exists e. by repeat split.
Qed.

Lemma format_result_fields results l :
  for_each format_result results = Ret l →
  Forall (λ d, keys d = result_fields) l.
Proof.
  intros H. apply for_each_Ret in H.
  induction H as [|r d results l Hr _ IH]; constructor; [|done].
  unfold format_result in Hr. destruct (hit_payload r); [|done].
  by injection Hr as <-.
Qed.

(** C9: [search] always returns a list and never raises.  When the [try]
    block runs through, the list is the one it built, one dictionary per hit
    with exactly the fields [id], [score], [content], [category], [tags],
    [metadata] and [timestamp]; when a step of the block raises (the
    embedding, the client's search, or the formatting of a hit without
    payload), the list is empty. *)
Theorem search_returns_a_list self query limit category :
  ∃ log l,
    search self query limit category = (log, Ret l) ∧
    Forall (λ d, keys d = result_fields) l ∧
    ((search_body self query limit category).2 = Ret l
     ∨ ∃ e, (search_body self query limit category).2 = Raise e ∧ l = []) ∧
    (∀ e, embed self query = Raise e → l = []) ∧
    (∀ v e, embed self query = Ret v →
            client_search (collection_name self) v limit
              (build_filter category) = Raise e →
            l = []) ∧
    (∀ v results r, embed self query = Ret v →
            client_search (collection_name self) v limit
              (build_filter category) = Ret results →
            r ∈ results → hit_payload r = None → l = []).
Proof.
  unfold search.
  destruct (search_body self query limit category) as [log [l|e]] eqn:Hb;
    simpl.
  - exists log, l. split; [done|].
    revert Hb. unfold search_body, bind, lift, request.
    destruct (embed self query) as [v|e]; [|done].
    destruct (client_search _ _ _ _) as [results|e] eqn:Hc; simpl; [|done].
    destruct (for_each format_result results) as [l'|e] eqn:Hf; simpl;
      [|done].
    intros [= _ <-]. split; [by apply format_result_fields in Hf|].
    split; [by left|]. split; [done|]. split.
    + intros v' e [= <-]. by rewrite Hc.
    + intros v' results' r [= <-]. rewrite Hc. intros [= <-] Hin Hr.
      destruct (for_each_Raise format_result results r
                  (mkException "AttributeError"
                     "'NoneType' object has no attribute 'get'") Hin)
        as [e' He'].
      * unfold format_result. by rewrite Hr.
      * by rewrite He' in Hf.
  - exists (log ++ [Print ("❌ Search failed: " +:+ str e)])%list, [].
    split; [done|]. split; [constructor|].
    split; [right; by exists e|]. done.
Qed.

(** ** The fallback embedding *)

Hypothesis md5_hexdigest_hex : ∀ s, is_hexdigest (md5_hexdigest s) = true.

Lemma unit_interval n : 0 ≤ n ≤ 255 → (0 <= inject_Z n / 255 <= 1)%Q.
Proof.
  intros Hn. unfold Qle, Qdiv, Qmult, Qinv, inject_Z. simpl. lia.
Qed.

Lemma fallback_embedding_value content :
  ∃ n0 n1 : Z,
    int16 (slice (md5_hexdigest content) 0 2) = Ret n0 ∧
    int16 (slice (md5_hexdigest content) 1 3) = Ret n1 ∧
    0 ≤ n0 ≤ 255 ∧ 0 ≤ n1 ≤ 255 ∧
    fallback_embedding content
    = Ret ([inject_Z n0 / 255; inject_Z n1 / 255]%Q ++ replicate 382 0%Q)%list.
Proof.
  unfold fallback_embedding.
  pose proof (md5_hexdigest_hex content) as Hhex.
  apply andb_true_iff in Hhex as [Hlen Hdigits].
  apply bool_decide_eq_true in Hlen. rewrite Hlen.
  change (Z.to_nat (Z.min (Z.min 384 (Z.of_nat 32)) 2)) with 2%nat.
  destruct (md5_hexdigest content) as [|a [|b [|c rest]]]; try discriminate.
  simpl in Hdigits.
  repeat (apply andb_true_iff in Hdigits as [?%bool_decide_eq_true Hdigits]).
  destruct (hex_digit a) as [da|] eqn:Ha; [|by destruct H].
  destruct (hex_digit b) as [db|] eqn:Hb; [|by destruct H0].
  destruct (hex_digit c) as [dc|] eqn:Hc; [|by destruct H1].
  destruct (int16_two_digits a b da db Ha Hb) as [E0 R0].
  destruct (int16_two_digits b c db dc Hb Hc) as [E1 R1].
  exists (16 * da + db), (16 * db + dc).
  assert (slice (String a (String b (String c rest))) 0 2
          = String a (String b EmptyString)) as S0.
  { unfold slice. simpl. by destruct rest. }
  assert (slice (String a (String b (String c rest))) 1 3
          = String b (String c EmptyString)) as S1.
  { unfold slice. simpl. by destruct rest. }
  split; [by rewrite S0|]. split; [by rewrite S1|].
  split; [lia|]. split; [lia|].
  change (seq 0 2) with [0%nat; 1%nat]. cbn [for_each].
  change (0 + 2)%nat with 2%nat. change (1 + 2)%nat with 3%nat.
  rewrite S0, S1, E0, E1. reflexivity.
Qed.

(** C10: without an embedding model, the vector that [store] sends to the
    client and the query vector that [search] sends are the fallback
    embedding of the text alone: the two bytes written by the first three
    hexadecimal digits of its MD5 digest, each divided by 255 and so between
    0 and 1, followed by 382 zeros.  It has 384 elements, which is the
    [embedding_dimension] of every manager that [__init__] builds and the
    size [init_collection] asks for when it creates the collection. *)
Theorem fallback_embedding_shape self env content category tags metadata
    query limit filter_category :
  embedding_model self = None →
  (∃ n0 n1 : Z,
     int16 (slice (md5_hexdigest content) 0 2) = Ret n0 ∧
     int16 (slice (md5_hexdigest content) 1 3) = Ret n1 ∧
     (0 <= inject_Z n0 / 255 <= 1)%Q ∧ (0 <= inject_Z n1 / 255 <= 1)%Q ∧
     fallback_embedding content
     = Ret ([inject_Z n0 / 255; inject_Z n1 / 255]%Q ++ replicate 382 0%Q)%list) ∧
  (∃ v, fallback_embedding content = Ret v ∧ length v = 384%nat ∧
        ∃ point,
          (store self env content category tags metadata).1
          = [Upsert (collection_name self) [point]] ∧
          vector point = v) ∧
  (∃ v log, fallback_embedding query = Ret v ∧ length v = 384%nat ∧
        (search self query limit filter_category).1
        = Search (collection_name self) v limit (build_filter filter_category)
          :: log) ∧
  (∀ url name loaded log self',
     init url name loaded = (log, Ret self') →
     embedding_dimension self' = 384 ∧
     ∀ names, client_get_collections = Ret names →
              collection_name self' ∉ names →
              CreateCollection (collection_name self')
                {| size := 384; distance := COSINE |}
              ∈ (init_collection self').1).
Proof.
  intros Hmodel. split; [|split; [|split]].
  - destruct (fallback_embedding_value content)
      as (n0 & n1 & ? & ? & ? & ? & ?).
    exists n0, n1. repeat split; auto; by apply unit_interval.
  - destruct (fallback_embedding_value content)
      as (n0 & n1 & _ & _ & _ & _ & Hv).
    eexists. split; [exact Hv|]. split; [reflexivity|].
    unfold store, store_body, embed. rewrite Hmodel, Hv.
    unfold bind, lift, request, ret, try_except.
    destruct (client_upsert _ _) as [[]|e]; simpl; eauto.
  - destruct (fallback_embedding_value query)
      as (n0 & n1 & _ & _ & _ & _ & Hv).
    eexists. unfold search, search_body, embed. rewrite Hmodel, Hv.
    unfold bind, lift, request, ret, try_except.
    destruct (client_search _ _ _ _) as [results|e]; simpl.
    + destruct (for_each format_result results); simpl; eauto.
    + eauto.
  - intros url name loaded log self' Hinit.
    assert (embedding_dimension self' = 384) as Hdim.
    { unfold init in Hinit. destruct loaded; simpl in Hinit;
        by injection Hinit as _ <-. }
    split; [done|]. intros names Hnames Hnew.
    unfold init_collection, bind, request, try_except. rewrite Hnames.
    destruct (decide _) as [|_]; [done|]. rewrite Hdim.
    destruct (client_create_collection _ _) as [[]|e]; simpl;
      apply elem_of_cons; right; apply elem_of_cons; by left.
Qed.

(** ** What [store] sends and reports *)

(** The point that [store] builds from its arguments and an embedding. *)
Definition new_point (env : Env) (content category : string)
    (tags : option (list string)) (metadata : option dict)
    (embedding : list Q) : PointStruct :=
  {| point_id := uuid4 env;
     vector := embedding;
     payload := [("content", VStr content);
                 ("category", VStr category);
                 ("tags", VList (VStr <$> default [] tags));
                 ("metadata", VDict (default [] metadata));
                 ("timestamp", VStr (now_iso env))] |}.

Lemma store_cases self env content category tags metadata :
  match embed self content with
  | Raise e =>
      store self env content category tags metadata
      = ([], Ret (not_stored e))
  | Ret v =>
      let point := new_point env content category tags metadata v in
      match client_upsert (collection_name self) [point] with
      | Ret _ =>
          store self env content category tags metadata
          = ([Upsert (collection_name self) [point]],
             Ret (stored (uuid4 env)))
      | Raise e =>
          store self env content category tags metadata
          = ([Upsert (collection_name self) [point]], Ret (not_stored e))
      end
  end.
Proof.
  unfold store, store_body, bind, lift, request, ret, try_except, new_point.
  destruct (embed self content) as [v|e]; [|done]. simpl.
  by destruct (client_upsert _ _) as [[]|e].
Qed.

(** X1: [store] reports [success = True] exactly when the embedding was
    computed and the client accepted the upsert of the new point; the
    identifier it then returns is the identifier of the point it sent. *)
Theorem store_success_iff self env content category tags metadata :
  (∃ d, (store self env content category tags metadata).2 = Ret d ∧
        dict_get d "success" = Some (VBool true))
  ↔ ∃ v point,
      embed self content = Ret v ∧
      point = new_point env content category tags metadata v ∧
      client_upsert (collection_name self) [point] = Ret () ∧
      (store self env content category tags metadata).1
      = [Upsert (collection_name self) [point]] ∧
      (store self env content category tags metadata).2
      = Ret (stored (point_id point)).
Proof.
  pose proof (store_cases self env content category tags metadata) as Hc.
  destruct (embed self content) as [v|e]; simpl in Hc.
  - destruct (client_upsert _ _) as [[]|e] eqn:Hu; rewrite Hc; simpl.
    + split; [|by eauto]. intros _. exists v. eexists. by repeat split.
    + split.
      * intros (d & [= <-] & Hd). discriminate.
      * intros (v' & point & [= <-] & -> & Hu' & _). congruence.
  - rewrite Hc. simpl. split.
    + intros (d & [= <-] & Hd). discriminate.
    + intros (v' & point & ? & _). discriminate.
Qed.

(** X2: when the embedding raises, [store] sends nothing to the client; when
    the client's upsert raises, exactly that one upsert of a single point was
    sent; in both cases the [error] entry of the result is the message of
    the very exception that was raised. *)
Theorem store_failure_report self env content category tags metadata :
  (∀ e, embed self content = Raise e →
        store self env content category tags metadata
        = ([], Ret [("success", VBool false); ("error", VStr (str e))])) ∧
  (∀ v e, embed self content = Ret v →
          client_upsert (collection_name self)
            [new_point env content category tags metadata v] = Raise e →
          store self env content category tags metadata
          = ([Upsert (collection_name self)
                [new_point env content category tags metadata v]],
             Ret [("success", VBool false); ("error", VStr (str e))])).
Proof.
  pose proof (store_cases self env content category tags metadata) as Hc.
  split.
  - intros e He. by rewrite He in Hc.
  - intros v e Hv Hu. rewrite Hv in Hc. simpl in Hc. by rewrite Hu in Hc.
Qed.

(** ** What [search] sends and returns *)

(** [payload.get(k, dflt)] of a hit's payload. *)
Definition field (r : ScoredPoint) (k : string) (dflt : value) : value :=
  get (default [] (hit_payload r)) k dflt.

Lemma format_result_fields_of r d :
  format_result r = Ret d →
  dict_get d "id" = Some (hit_id r) ∧
  dict_get d "score" = Some (VFloat (hit_score r)) ∧
  dict_get d "content" = Some (field r "content" (VStr "")) ∧
  dict_get d "category" = Some (field r "category" (VStr "")) ∧
  dict_get d "tags" = Some (field r "tags" (VList [])) ∧
  dict_get d "metadata" = Some (field r "metadata" (VDict [])) ∧
  dict_get d "timestamp" = Some (field r "timestamp" (VStr "")).
Proof.
  unfold format_result, field. destruct (hit_payload r); [|done].
  intros [= <-]. by repeat split.
Qed.

(** X3: when the embedding is computed, the client answers and every hit
    has a payload, [search] returns one record per hit, in the client's
    order; the record carries the hit's [id] and [score], and for [content],
    [category], [tags], [metadata] and [timestamp] the payload's entry or,
    when the payload lacks it, the empty string, list or dictionary. *)
Theorem search_one_record_per_hit self query limit category v results :
  embed self query = Ret v →
  client_search (collection_name self) v limit (build_filter category)
  = Ret results →
  Forall (λ r, is_Some (hit_payload r)) results →
  ∃ l, (search self query limit category).2 = Ret l ∧
       length l = length results ∧
       ∀ i r d, results !! i = Some r → l !! i = Some d →
         dict_get d "id" = Some (hit_id r) ∧
         dict_get d "score" = Some (VFloat (hit_score r)) ∧
         dict_get d "content" = Some (field r "content" (VStr "")) ∧
         dict_get d "category" = Some (field r "category" (VStr "")) ∧
         dict_get d "tags" = Some (field r "tags" (VList [])) ∧
         dict_get d "metadata" = Some (field r "metadata" (VDict [])) ∧
         dict_get d "timestamp" = Some (field r "timestamp" (VStr "")).
Proof.
  intros Hv Hc Hall.
  assert (∃ l, for_each format_result results = Ret l) as [l Hl].
  { clear Hc. induction Hall as [|r results [p Hp] _ [l IH]]; [by eexists|].
    simpl. unfold mbind, outcome_bind, format_result at 1.
    rewrite Hp, IH. eauto. }
  exists l. split.
  - unfold search, search_body, bind, lift, request, try_except.
    rewrite Hv. simpl. rewrite Hc. simpl. by rewrite Hl.
  - apply for_each_Ret in Hl. split; [symmetry; by eapply Forall2_length|].
    intros i r d Hr Hd. apply format_result_fields_of.
    exact (Forall2_lookup_lr (λ x y, format_result x = Ret y)
             results l i r d Hl Hr Hd).
Qed.


(** ** Setting up the collection *)

(** X5: when the client lists the manager's collection, [init_collection]
    returns normally without asking the client to create anything: setting
    up twice never recreates the collection. *)
Theorem init_collection_existing self names :
  client_get_collections = Ret names →
  collection_name self ∈ names →
  init_collection self
  = ([GetCollections;
      Print ("✅ Collection already exists: " +:+ collection_name self)],
     Ret ()).
Proof.
  intros Hn Hin. unfold init_collection, bind, request, try_except.
  rewrite Hn. by destruct (decide _).
Qed.

(** X6: unlike [store] and [search], [init_collection] does not swallow
    failures: when listing the collections raises, or when the collection
    is missing and creating it raises, it prints the failure and raises the
    very same exception; a failed listing is never followed by a creation. *)
Theorem init_collection_reraises self :
  (∀ e, client_get_collections = Raise e →
        init_collection self
        = ([GetCollections;
            Print ("❌ Failed to initialize collection: " +:+ str e)],
           Raise e)) ∧
  (∀ names e,
     client_get_collections = Ret names →
     collection_name self ∉ names →
     client_create_collection (collection_name self)
       {| size := embedding_dimension self; distance := COSINE |} = Raise e →
     init_collection self
     = ([GetCollections;
         CreateCollection (collection_name self)
           {| size := embedding_dimension self; distance := COSINE |};
         Print ("❌ Failed to initialize collection: " +:+ str e)],
        Raise e)).
Proof.
  split.
  - intros e He. unfold init_collection, bind, request, try_except.
    by rewrite He.
  - intros names e Hn Hnew Hc.
    unfold init_collection, bind, request, try_except. rewrite Hn.
    destruct (decide _) as [|_]; [done|]. by rewrite Hc.
Qed.

(** ** How much of the digest the fallback embedding reads *)

Lemma slice_of_prefix s :
  slice (slice s 0 3) 0 2 = slice s 0 2 ∧
  slice (slice s 0 3) 1 3 = slice s 1 3.
Proof.
  unfold slice. destruct s as [|a [|b [|c rest]]]; simpl; try done.
  by destruct rest.
Qed.

Lemma fallback_embedding_digits content :
  ∃ da db dc : Z,
    0 ≤ da < 16 ∧ 0 ≤ db < 16 ∧ 0 ≤ dc < 16 ∧
    fallback_embedding content
    = Ret ([inject_Z (16 * da + db) / 255;
            inject_Z (16 * db + dc) / 255]%Q ++ replicate 382 0%Q)%list.
Proof.
  destruct (fallback_embedding_value content)
    as (n0 & n1 & E0 & E1 & _ & _ & Hv).
  pose proof (md5_hexdigest_hex content) as Hhex.
  apply andb_true_iff in Hhex as [Hlen Hdigits].
  apply bool_decide_eq_true in Hlen.
  destruct (md5_hexdigest content) as [|a [|b [|c rest]]]; try discriminate.
  simpl in Hdigits.
  repeat (apply andb_true_iff in Hdigits as [?%bool_decide_eq_true Hdigits]).
  destruct (hex_digit a) as [da|] eqn:Ha; [|by destruct H].
  destruct (hex_digit b) as [db|] eqn:Hb; [|by destruct H0].
  destruct (hex_digit c) as [dc|] eqn:Hc; [|by destruct H1].
  destruct (int16_two_digits a b da db Ha Hb) as [F0 _].
  destruct (int16_two_digits b c db dc Hb Hc) as [F1 _].
  assert (slice (String a (String b (String c rest))) 0 2
          = String a (String b EmptyString)) as S0.
  { unfold slice. simpl. by destruct rest. }
  assert (slice (String a (String b (String c rest))) 1 3
          = String b (String c EmptyString)) as S1.
  { unfold slice. simpl. by destruct rest. }
  rewrite S0, F0 in E0. rewrite S1, F1 in E1.
  injection E0 as <-. injection E1 as <-.
  exists da, db, dc.
  split; [by eapply hex_digit_range|]. split; [by eapply hex_digit_range|].
  split; [by eapply hex_digit_range|]. exact Hv.
Qed.

(** X7: the fallback embedding reads only the first three hexadecimal
    digits of the digest: two texts whose digests agree on them get the same
    embedding, although the digests differ. *)
Theorem fallback_embedding_collides content1 content2 :
  slice (md5_hexdigest content1) 0 3 = slice (md5_hexdigest content2) 0 3 →
  fallback_embedding content1 = fallback_embedding content2.
Proof.
  intros Hpre.
  destruct (fallback_embedding_value content1)
    as (n0 & n1 & E0 & E1 & _ & _ & ->).
  destruct (fallback_embedding_value content2)
    as (m0 & m1 & F0 & F1 & _ & _ & ->).
  destruct (slice_of_prefix (md5_hexdigest content1)) as [P0 P1].
  destruct (slice_of_prefix (md5_hexdigest content2)) as [Q0 Q1].
  rewrite <- P0, Hpre, Q0, F0 in E0. rewrite <- P1, Hpre, Q1, F1 in E1.
  injection E0 as <-. injection E1 as <-. reflexivity.
Qed.

(** X8: the two bytes of the fallback embedding come from overlapping
    slices of the digest ([[0:2]] and [[1:3]]): the low hexadecimal digit of
    the first byte is the high hexadecimal digit of the second. *)
Theorem fallback_embedding_overlaps content :
  ∃ n0 n1 : Z,
    fallback_embedding content
    = Ret ([inject_Z n0 / 255; inject_Z n1 / 255]%Q
           ++ replicate 382 0%Q)%list ∧
    0 ≤ n0 ≤ 255 ∧ 0 ≤ n1 ≤ 255 ∧
    n0 mod 16 = n1 / 16.
Proof.
  destruct (fallback_embedding_digits content)
    as (da & db & dc & Ha & Hb & Hc & Hv).
  exists (16 * da + db), (16 * db + dc).
  split; [exact Hv|]. split; [lia|]. split; [lia|].
  rewrite (Z.add_comm (16 * da)), (Z.mul_comm 16 da), Z_mod_plus_full.
  rewrite (Z.add_comm (16 * db)), (Z.mul_comm 16 db), Z_div_plus_full by lia.
  rewrite Z.mod_small, Z.div_small by lia. lia.
Qed.

End Manager.

(** ** A run without embedding model *)

(** The digests of two texts, as [hashlib] computes them; every other text
    is given the digest of the empty text. *)
Definition digest_table (s : string) : string :=
  if decide (s = "hello") then "5d41402abc4b2a76b9719d911017c592"
  else "d41d8cd98f00b204e9800998ecf8427e".

Definition offline : MemoryManager :=
  {| qdrant_url := "http://localhost:6333";
     collection_name := "athena_memories";
     embedding_model := None;
     embedding_dimension := 384 |}.

Example init_without_model :
  init None None (Raise (mkException "OSError" "no model"))
  = ([Print "⚠️ Failed to load embedding model: no model"], Ret offline).
Proof. reflexivity. Qed.

Example fallback_embedding_hello :
  fallback_embedding digest_table "hello"
  = Ret ([93 # 255; 212 # 255] ++ replicate 382 0%Q)%list.
Proof. vm_compute. reflexivity. Qed.

Example store_hello :
  (store (λ _ _, Ret ()) digest_table offline
     {| uuid4 := "0b0e"; now_iso := "2024-01-01T00:00:00" |}
     "hello" "general" None None).2
  = Ret [("success", VBool true); ("id", VStr "0b0e");
         ("message", VStr "Memory stored successfully")].
Proof. vm_compute. reflexivity. Qed.

Example store_unreachable :
  (store (λ _ _, Raise (mkException "ConnectionError" "refused"))
     digest_table offline
     {| uuid4 := "0b0e"; now_iso := "2024-01-01T00:00:00" |}
     "hello" "general" None None).2
  = Ret [("success", VBool false); ("error", VStr "refused")].
Proof. vm_compute. reflexivity. Qed.

Example search_hit_without_payload :
  search (λ _ _ _ _, Ret [mkScoredPoint (VInt 1) 1 None]) digest_table
    offline "hello" 5 None
  = ([Search "athena_memories"
        ([93 # 255; 212 # 255] ++ replicate 382 0%Q)%list 5 None;
      Print "❌ Search failed: 'NoneType' object has no attribute 'get'"],
     Ret []).
Proof. vm_compute. reflexivity. Qed.

Lemma digest_table_hex s : is_hexdigest (digest_table s) = true.
Proof. unfold digest_table. by destruct (decide (s = "hello")). Defined.

(** The fallback embedding of ["hello"] with a client that accepts
    everything. *)
Lemma fallback_embedding_shape_witness :
  ∃ n0 n1 : Z,
    int16 (slice (digest_table "hello") 0 2) = Ret n0 ∧
    int16 (slice (digest_table "hello") 1 3) = Ret n1 ∧
    (0 <= inject_Z n0 / 255 <= 1)%Q ∧ (0 <= inject_Z n1 / 255 <= 1)%Q ∧
    fallback_embedding digest_table "hello"
    = Ret ([inject_Z n0 / 255; inject_Z n1 / 255]%Q
           ++ replicate 382 0%Q)%list.
Proof.
  exact (proj1 (fallback_embedding_shape
                  (Ret []) (λ _ _, Ret ()) (λ _ _, Ret ())
                  (λ _ _ _ _, Ret []) digest_table digest_table_hex
                  offline {| uuid4 := "0b0e"; now_iso := "" |}
                  "hello" "general" None None "hello" 5 None eq_refl)).
Defined.

(** ** Runs of the further properties *)

(** Two texts whose digests, as [hashlib] computes them, begin with the same
    three digits; every other text is given the digest of the empty text. *)
Definition colliding_digests (s : string) : string :=
  if decide (s = "ah") then "3cf4046014cbdfaa7ea8e6904ab04608"
  else if decide (s = "ev") then "3cf804e7182ab12879c33c914e1c5cd8"
  else "d41d8cd98f00b204e9800998ecf8427e".

Lemma colliding_digests_hex s : is_hexdigest (colliding_digests s) = true.
Proof.
  unfold colliding_digests.
  destruct (decide (s = "ah")); [done|]. by destruct (decide (s = "ev")).
Defined.

Example fallback_embedding_ah :
  fallback_embedding colliding_digests "ah"
  = Ret ([60 # 255; 207 # 255] ++ replicate 382 0%Q)%list.
Proof. vm_compute. reflexivity. Qed.

Lemma fallback_embedding_collides_witness :
  fallback_embedding colliding_digests "ah"
  = fallback_embedding colliding_digests "ev".
Proof.
  apply (fallback_embedding_collides colliding_digests colliding_digests_hex
           "ah" "ev").
  reflexivity.
Defined.

Lemma fallback_embedding_overlaps_witness :
  ∃ n0 n1 : Z,
    fallback_embedding digest_table "hello"
    = Ret ([inject_Z n0 / 255; inject_Z n1 / 255]%Q
           ++ replicate 382 0%Q)%list ∧
    0 ≤ n0 ≤ 255 ∧ 0 ≤ n1 ≤ 255 ∧
    n0 mod 16 = n1 / 16.
Proof.
  exact (fallback_embedding_overlaps digest_table digest_table_hex "hello").
Defined.

(** A model that answers every text with one short vector, and a client
    that returns two hits, one without [tags] in its payload. *)
Definition online : MemoryManager :=
  {| qdrant_url := "http://localhost:6333";
     collection_name := "athena_memories";
     embedding_model := Some (λ _, Ret [1 # 2; 1 # 3]%Q);
     embedding_dimension := 384 |}.

Definition two_hits : list ScoredPoint :=
  [ {| hit_id := VStr "a1"; hit_score := (9 # 10)%Q;
       hit_payload := Some [("content", VStr "User prefers Python");
                            ("category", VStr "preference");
                            ("tags", VList [VStr "lang"]);
                            ("metadata", VDict []);
                            ("timestamp", VStr "2024-01-01T00:00:00")] |};
    {| hit_id := VInt 7; hit_score := (1 # 2)%Q;
       hit_payload := Some [("content", VStr "Project uses Qdrant")] |} ].

Example search_two_hits :
  (search (λ _ _ _ _, Ret two_hits) digest_table online "prefer" 5
     (Some "preference")).2
  = Ret [[("id", VStr "a1"); ("score", VFloat (9 # 10));
          ("content", VStr "User prefers Python");
          ("category", VStr "preference");
          ("tags", VList [VStr "lang"]);
          ("metadata", VDict []);
          ("timestamp", VStr "2024-01-01T00:00:00")];
         [("id", VInt 7); ("score", VFloat (1 # 2));
          ("content", VStr "Project uses Qdrant");
          ("category", VStr ""); ("tags", VList []);
          ("metadata", VDict []); ("timestamp", VStr "")]].
Proof. vm_compute. reflexivity. Qed.

Lemma search_one_record_per_hit_witness :
  ∃ l, (search (λ _ _ _ _, Ret two_hits) digest_table online "prefer" 5
          (Some "preference")).2 = Ret l ∧
       length l = length two_hits ∧
       ∀ i r d, two_hits !! i = Some r → l !! i = Some d →
         dict_get d "id" = Some (hit_id r) ∧
         dict_get d "score" = Some (VFloat (hit_score r)) ∧
         dict_get d "content" = Some (field r "content" (VStr "")) ∧
         dict_get d "category" = Some (field r "category" (VStr "")) ∧
         dict_get d "tags" = Some (field r "tags" (VList [])) ∧
         dict_get d "metadata" = Some (field r "metadata" (VDict [])) ∧
         dict_get d "timestamp" = Some (field r "timestamp" (VStr "")).
Proof.
  apply (search_one_record_per_hit (λ _ _ _ _, Ret two_hits) digest_table
           online "prefer" 5 (Some "preference") [1 # 2; 1 # 3]%Q two_hits).
  - reflexivity.
  - reflexivity.
  - repeat constructor; eexists; reflexivity.
Defined.

Lemma init_collection_existing_witness :
  init_collection (Ret ["notes"; "athena_memories"]) (λ _ _, Ret ()) offline
  = ([GetCollections;
      Print ("✅ Collection already exists: " +:+ collection_name offline)],
     Ret ()).
Proof.
  apply (init_collection_existing (Ret ["notes"; "athena_memories"])
           (λ _ _, Ret ()) offline ["notes"; "athena_memories"]).
  - reflexivity.
  - apply elem_of_cons. right. apply elem_of_cons. by left.
Defined.

End Memory.

(* ===================================================================== *)
(** * PersonalizationEngine: user style and preferences *)
(* ===================================================================== *)

Module Personalization.

(** The arithmetic that [learn_style] performs on style values: numeric
    literals, [x + y], [x - y] and [x * y].  It is kept abstract, so that the
    results hold for Python's floats as they do for exact numbers. *)
Class Number (num : Type) := {
  literal : Q → num;
  add : num → num → num;
  sub : num → num → num;
  mul : num → num → num
}.

#[global] Instance Q_number : Number Q :=
  {| literal := λ q, q; add := Qplus; sub := Qminus; mul := Qmult |}.

Section Engine.

Context {num : Type} `{Number num}.

Record Profile := mkProfile {
  created : string;
  preferences : gmap string Py.value;
  style : gmap string num;
  constitution : Py.value;
  learning_data : list Py.value;
  last_updated : option string
}.

(** The engine after [__init__]: [profiles] is the dictionary loaded from
    the profiles file. *)
Record PersonalizationEngine := mkEngine {
  enable_mkm12 : bool;
  learning_rate : num;
  profiles : gmap string Profile
}.

(** [__init__]: [config_enable] and [config_rate] are the entries
    [enable_mkm12] and [learning_rate] of the configuration, when present,
    and [loaded] is what [_load_profiles] read from the profiles file. *)
Definition init (config_enable : option bool) (config_rate : option num)
    (loaded : gmap string Profile) : PersonalizationEngine :=
  {| enable_mkm12 := default true config_enable;
     learning_rate := default (literal (1 # 10)) config_rate;
     profiles := loaded |}.

(** [user_id or "default"] *)
Definition resolve_user (user_id : option string) : string :=
  match user_id with
  | Some u => if decide (u = "") then "default" else u
  | None => "default"
  end.

(** [get_profile]: the engine, in which a missing profile has been created,
    and the profile.  [t] is [datetime.now().isoformat()]. *)
Definition get_profile (self : PersonalizationEngine) (t : string)
    (user_id : option string) : PersonalizationEngine * Profile :=
  let user_id := resolve_user user_id in
  match profiles self !! user_id with
  | Some profile => (self, profile)
  | None =>
      let profile :=
        {| created := t; preferences := ∅; style := ∅;
           constitution := Py.VNone; learning_data := [];
           last_updated := None |} in
      ({| enable_mkm12 := enable_mkm12 self;
          learning_rate := learning_rate self;
          profiles := <[user_id := profile]> (profiles self) |}, profile)
  end.

(** [update_preference] reads the clock twice: [t] is the reading inside
    [get_profile], kept as [created] when the profile is made there, and
    [now] is the later reading written to [last_updated]. *)
Definition update_preference (self : PersonalizationEngine) (t now : string)
    (key : string) (value : Py.value) (user_id : option string)
    : PersonalizationEngine :=
  let user_id := resolve_user user_id in
  let '(self, profile) := get_profile self t (Some user_id) in
  let profile :=
    {| created := created profile;
       preferences := <[key := value]> (preferences profile);
       style := style profile;
       constitution := constitution profile;
       learning_data := learning_data profile;
       last_updated := Some now |} in
  {| enable_mkm12 := enable_mkm12 self;
     learning_rate := learning_rate self;
     profiles := <[user_id := profile]> (profiles self) |}.

(** One turn of the loop of [learn_style]. *)
Definition learn_item (rate : num) (style : gmap string num)
    (item : string * num) : gmap string num :=
  let '(key, value) := item in
  match style !! key with
  | Some old =>
      <[key := add (mul old (sub (literal 1) rate)) (mul value rate)]> style
  | None => <[key := value]> style
  end.

(** The loop over [style_data.items()], in the order of the items. *)
Definition merge_style (rate : num) (style : gmap string num)
    (style_data : list (string * num)) : gmap string num :=
  foldl (learn_item rate) style style_data.

(** [learn_style] reads the clock twice, like [update_preference]: [t]
    inside [get_profile] and [now] for [last_updated]. *)
Definition learn_style (self : PersonalizationEngine) (t now : string)
    (style_data : list (string * num)) (user_id : option string)
    : PersonalizationEngine :=
  let user_id := resolve_user user_id in
  let '(self, profile) := get_profile self t (Some user_id) in
  let profile :=
    {| created := created profile;
       preferences := preferences profile;
       style := merge_style (learning_rate self) (style profile) style_data;
       constitution := constitution profile;
       learning_data := learning_data profile;
       last_updated := Some now |} in
  {| enable_mkm12 := enable_mkm12 self;
     learning_rate := learning_rate self;
     profiles := <[user_id := profile]> (profiles self) |}.

(** The style of a user as [get_profile] would report it. *)
Definition style_of (self : PersonalizationEngine) (user_id : option string)
    : gmap string num :=
  from_option style ∅ (profiles self !! resolve_user user_id).

(** ** Learning a style *)

Lemma learn_item_other rate st key value key' :
  key ≠ key' → learn_item rate st (key, value) !! key' = st !! key'.
Proof.
  intros Hne. unfold learn_item.
  destruct (st !! key); by rewrite lookup_insert_ne.
Qed.

Lemma merge_style_other rate style_data :
  ∀ st key, key ∉ style_data.*1 →
            merge_style rate st style_data !! key = st !! key.
Proof.
  unfold merge_style.
  induction style_data as [|[k v] l IH]; intros st key Hnotin; [done|].
  simpl in *. apply not_elem_of_cons in Hnotin as [Hne Hnotin].
  rewrite IH by done. by apply learn_item_other.
Qed.

Lemma merge_style_item rate style_data :
  NoDup style_data.*1 →
  ∀ st key value, (key, value) ∈ style_data →
    merge_style rate st style_data !! key
    = Some (match st !! key with
            | Some old => add (mul old (sub (literal 1) rate)) (mul value rate)
            | None => value
            end).
Proof.
  induction style_data as [|[k v] l IH]; intros Hnd st key value Hin;
    [by apply elem_of_nil in Hin|].
  simpl in Hnd. apply NoDup_cons in Hnd as [Hk Hnd].
  apply elem_of_cons in Hin as [[= -> ->]|Hin].
  - change (merge_style rate st ((k, v) :: l))
      with (merge_style rate (learn_item rate st (k, v)) l).
    rewrite merge_style_other by done. unfold learn_item.
    destruct (st !! k); by rewrite lookup_insert_eq.
  - change (merge_style rate st ((k, v) :: l))
      with (merge_style rate (learn_item rate st (k, v)) l).
    rewrite (IH Hnd _ _ _ Hin). rewrite learn_item_other; [done|].
    intros ->. apply Hk. apply list_elem_of_fmap. by exists (key, value).
Qed.

Lemma style_of_get_profile self t user_id :
  style (get_profile self t user_id).2 = style_of self user_id.
Proof.
  unfold get_profile, style_of.
  by destruct (profiles self !! resolve_user user_id).
Qed.

Lemma resolve_user_idem user_id :
  resolve_user (Some (resolve_user user_id)) = resolve_user user_id.
Proof.
  unfold resolve_user. destruct user_id as [u|]; [|done].
  destruct (decide (u = "")) as [|Hu]; [done|].
  by destruct (decide (u = "")).
Qed.

Lemma style_of_learn_style self t now style_data user_id :
  style_of (learn_style self t now style_data user_id) user_id
  = merge_style (learning_rate self) (style_of self user_id) style_data.
Proof.
  unfold learn_style.
  pose proof (style_of_get_profile self t (Some (resolve_user user_id))) as Hs.
  destruct (get_profile self t (Some (resolve_user user_id)))
    as [self' profile] eqn:Hg.
  simpl in Hs. unfold style_of at 1. simpl. rewrite lookup_insert_eq. simpl.
  rewrite Hs. unfold style_of. rewrite resolve_user_idem.
  replace (learning_rate self') with (learning_rate self); [done|].
  unfold get_profile in Hg.
  destruct (profiles self !! _); by injection Hg as <- _.
Qed.

(** C8: [learn_style] with items of pairwise distinct keys (the items of a
    dictionary) replaces the value of every style key already in the user's
    profile by [old * (1 - learning_rate) + new * learning_rate], stores the
    new value as it is for every key not yet there, and leaves every key
    that the style data does not mention unchanged. *)
Theorem learn_style_blends self t now style_data user_id :
  NoDup style_data.*1 →
  let old_style := style_of self user_id in
  let new_style :=
    style_of (learn_style self t now style_data user_id) user_id in
  (∀ key value, (key, value) ∈ style_data →
     new_style !! key
     = Some (match old_style !! key with
             | Some old =>
                 add (mul old (sub (literal 1) (learning_rate self)))
                   (mul value (learning_rate self))
             | None => value
             end)) ∧
  (∀ key, key ∉ style_data.*1 → new_style !! key = old_style !! key).
Proof.
  intros Hnd old_style new_style. subst old_style new_style.
  rewrite style_of_learn_style. split.
  - intros key value Hin. by apply merge_style_item.
  - intros key Hnotin. by apply merge_style_other.
Qed.

(** ** Profiles: creation, lookup and frame *)

(** The profile that [learn_style] writes back. *)
Definition learned (rate : num) (t : string) (style_data : list (string * num))
    (p : Profile) : Profile :=
  {| created := created p;
     preferences := preferences p;
     style := merge_style rate (style p) style_data;
     constitution := constitution p;
     learning_data := learning_data p;
     last_updated := Some t |}.

(** The profile that [update_preference] writes back. *)
Definition preferring (t : string) (key : string) (value : Py.value)
    (p : Profile) : Profile :=
  {| created := created p;
     preferences := <[key := value]> (preferences p);
     style := style p;
     constitution := constitution p;
     learning_data := learning_data p;
     last_updated := Some t |}.

Lemma get_profile_resolved self t user_id :
  get_profile self t (Some (resolve_user user_id))
  = get_profile self t user_id.
Proof. unfold get_profile. by rewrite resolve_user_idem. Qed.

Lemma get_profile_stored self t user_id :
  profiles (get_profile self t user_id).1 !! resolve_user user_id
  = Some (get_profile self t user_id).2.
Proof.
  unfold get_profile.
  destruct (profiles self !! resolve_user user_id) eqn:Hl; simpl; [done|].
  by rewrite lookup_insert_eq.
Qed.

Lemma get_profile_writes self t user_id :
  <[resolve_user user_id := (get_profile self t user_id).2]> (profiles self)
  = profiles (get_profile self t user_id).1 ∧
  enable_mkm12 (get_profile self t user_id).1 = enable_mkm12 self ∧
  learning_rate (get_profile self t user_id).1 = learning_rate self.
Proof.
  unfold get_profile.
  destruct (profiles self !! resolve_user user_id) eqn:Hl; simpl; [|done].
  split; [by apply insert_id|done].
Qed.

Lemma learn_style_eq self t now style_data user_id :
  learn_style self t now style_data user_id
  = {| enable_mkm12 := enable_mkm12 self;
       learning_rate := learning_rate self;
       profiles :=
         <[resolve_user user_id :=
             learned (learning_rate self) now style_data
               (get_profile self t user_id).2]> (profiles self) |}.
Proof.
  unfold learn_style. rewrite get_profile_resolved.
  destruct (get_profile_writes self t user_id) as (Hp & He & Hr).
  destruct (get_profile self t user_id) as [self' p]. simpl in *.
  rewrite He, Hr, <- Hp, insert_insert_eq. reflexivity.
Qed.

Lemma update_preference_eq self t now key value user_id :
  update_preference self t now key value user_id
  = {| enable_mkm12 := enable_mkm12 self;
       learning_rate := learning_rate self;
       profiles :=
         <[resolve_user user_id :=
             preferring now key value (get_profile self t user_id).2]>
           (profiles self) |}.
Proof.
  unfold update_preference. rewrite get_profile_resolved.
  destruct (get_profile_writes self t user_id) as (Hp & He & Hr).
  destruct (get_profile self t user_id) as [self' p]. simpl in *.
  rewrite He, Hr, <- Hp, insert_insert_eq. reflexivity.
Qed.

Lemma get_profile_after_update self t now t' key value user_id :
  (get_profile (update_preference self t now key value user_id) t' user_id).2
  = preferring now key value (get_profile self t user_id).2.
Proof.
  rewrite update_preference_eq. unfold get_profile at 1. simpl.
  by rewrite lookup_insert_eq.
Qed.

Lemma get_profile_after_learning self t now t' style_data user_id :
  (get_profile (learn_style self t now style_data user_id) t' user_id).2
  = learned (learning_rate self) now style_data
      (get_profile self t user_id).2.
Proof.
  rewrite learn_style_eq. unfold get_profile at 1. simpl.
  by rewrite lookup_insert_eq.
Qed.

(** No user, the empty user name and the name ["default"] address one and
    the same profile, in [get_profile], [update_preference] and [learn_style]
    alike. *)
Lemma default_user self t now key value style_data :
  get_profile self t None = get_profile self t (Some "default") ∧
  get_profile self t (Some "") = get_profile self t (Some "default") ∧
  update_preference self t now key value None
  = update_preference self t now key value (Some "default") ∧
  update_preference self t now key value (Some "")
  = update_preference self t now key value (Some "default") ∧
  learn_style self t now style_data None
  = learn_style self t now style_data (Some "default") ∧
  learn_style self t now style_data (Some "")
  = learn_style self t now style_data (Some "default").
Proof. by repeat split. Qed.

(** X9: [get_profile] never alters or removes a profile that exists; the
    profile it returns is the one it keeps for the user; and asking again,
    at any later time, returns that same profile, creation time included,
    and changes nothing. *)
Theorem get_profile_stable self t t' user_id :
  (∀ u p, profiles self !! u = Some p →
          profiles (get_profile self t user_id).1 !! u = Some p) ∧
  profiles (get_profile self t user_id).1 !! resolve_user user_id
  = Some (get_profile self t user_id).2 ∧
  get_profile (get_profile self t user_id).1 t' user_id
  = get_profile self t user_id.
Proof.
  split; [|split; [apply get_profile_stored|]].
  - intros u p Hu. unfold get_profile.
    destruct (profiles self !! resolve_user user_id) eqn:Hl; simpl; [done|].
    rewrite lookup_insert_ne; [done|]. intros <-. congruence.
  - pose proof (get_profile_stored self t user_id) as Hs.
    destruct (get_profile self t user_id) as [self' p]. simpl in *.
    unfold get_profile. by rewrite Hs.
Qed.

(** X10: after [update_preference], the user's profile holds the new value
    under the key; every other preference, the style, the creation time, the
    constitution and the learning data are those of the profile before, and
    [last_updated] is the clock reading taken after the update.  For a user
    without profile the creation time is the earlier reading, taken when
    [get_profile] made the profile. *)
Theorem update_preference_lookup self t now t' key value user_id :
  let before := (get_profile self t user_id).2 in
  let after :=
    (get_profile (update_preference self t now key value user_id) t'
       user_id).2 in
  preferences after !! key = Some value ∧
  (∀ k, k ≠ key → preferences after !! k = preferences before !! k) ∧
  style after = style before ∧
  created after = created before ∧
  (profiles self !! resolve_user user_id = None → created after = t) ∧
  constitution after = constitution before ∧
  learning_data after = learning_data before ∧
  last_updated after = Some now.
Proof.
  intros before after. subst before after.
  rewrite get_profile_after_update. simpl.
  split; [by rewrite lookup_insert_eq|].
  split; [by intros k Hk; rewrite lookup_insert_ne|].
  split; [done|]. split; [done|]. split; [|done].
  intros Hnew. unfold get_profile. by rewrite Hnew.
Qed.

(** X11: [update_preference] and [learn_style] change the profile of the
    user they are called for and nothing else: every other user's profile,
    the learning rate and the [enable_mkm12] switch stay as they were. *)
Theorem other_users_untouched self t now key value style_data user_id :
  (∀ u, u ≠ resolve_user user_id →
        profiles (update_preference self t now key value user_id) !! u
        = profiles self !! u ∧
        profiles (learn_style self t now style_data user_id) !! u
        = profiles self !! u) ∧
  learning_rate (update_preference self t now key value user_id)
  = learning_rate self ∧
  learning_rate (learn_style self t now style_data user_id)
  = learning_rate self ∧
  enable_mkm12 (update_preference self t now key value user_id)
  = enable_mkm12 self ∧
  enable_mkm12 (learn_style self t now style_data user_id) = enable_mkm12 self.
Proof.
  rewrite update_preference_eq, learn_style_eq. simpl.
  split; [|done]. intros u Hu. by rewrite !lookup_insert_ne.
Qed.

(** ** More on learning a style *)

Lemma merge_style_dom rate style_data :
  ∀ st, dom (merge_style rate st style_data)
        = dom st ∪ list_to_set style_data.*1.
Proof.
  unfold merge_style.
  induction style_data as [|[k v] l IH]; intros st; simpl.
  - by rewrite (right_id_L ∅ (∪)).
  - rewrite IH. unfold learn_item.
    destruct (st !! k) eqn:Hk; rewrite dom_insert_L;
      by rewrite (comm_L (∪) {[k]} (dom st)), (assoc_L (∪)).
Qed.

(** X12: [learn_style] never removes a style key: the keys of the user's
    style afterwards are the keys before together with the keys of the
    style data. *)
Theorem learn_style_keys self t now style_data user_id :
  dom (style_of (learn_style self t now style_data user_id) user_id)
  = dom (style_of self user_id) ∪ list_to_set style_data.*1.
Proof. rewrite style_of_learn_style. apply merge_style_dom. Qed.

(** X13: [learn_style] leaves the user's preferences, creation time,
    constitution and learning data as they were, and sets [last_updated] to
    the clock reading taken after the loop.  For a user without profile the
    creation time is the earlier reading, taken when [get_profile] made the
    profile. *)
Theorem learn_style_keeps_the_rest self t now t' style_data user_id :
  let before := (get_profile self t user_id).2 in
  let after :=
    (get_profile (learn_style self t now style_data user_id) t'
       user_id).2 in
  preferences after = preferences before ∧
  created after = created before ∧
  (profiles self !! resolve_user user_id = None → created after = t) ∧
  constitution after = constitution before ∧
  learning_data after = learning_data before ∧
  last_updated after = Some now.
Proof.
  intros before after. subst before after.
  rewrite get_profile_after_learning. simpl.
  split; [done|]. split; [done|]. split; [|done].
  intros Hnew. unfold get_profile. by rewrite Hnew.
Qed.

Lemma merge_style_fresh rate style_data :
  NoDup style_data.*1 → merge_style rate ∅ style_data = list_to_map style_data.
Proof.
  intros Hnd. apply map_eq. intros key.
  destruct (list_to_map style_data !! key) as [v|] eqn:Hl.
  - pose proof Hl as Hin. apply elem_of_list_to_map_2 in Hin.
    rewrite (merge_style_item rate style_data Hnd ∅ key v Hin).
    by rewrite lookup_empty.
  - apply not_elem_of_list_to_map in Hl.
    rewrite merge_style_other by done. apply lookup_empty.
Qed.

(** X14: the first time a user's style is learnt, the values are stored as
    given: for a user without profile and style data with pairwise distinct
    keys, the style afterwards is exactly the style data, whatever the
    learning rate. *)
Theorem learn_style_first_time self t now style_data user_id :
  profiles self !! resolve_user user_id = None →
  NoDup style_data.*1 →
  style_of (learn_style self t now style_data user_id) user_id
  = list_to_map style_data.
Proof.
  intros Hnew Hnd. rewrite style_of_learn_style.
  unfold style_of. rewrite Hnew. simpl. by apply merge_style_fresh.
Qed.

(** X15: learning a batch of style data is the same as learning its parts
    one after the other, whatever the clock shows in between: the profile
    keeps the creation time of the first call and ends with the
    [last_updated] of the last. *)
Theorem learn_style_app self t now t1 now1 data1 data2 user_id :
  learn_style self t now (data1 ++ data2) user_id
  = learn_style (learn_style self t now1 data1 user_id) t1 now data2 user_id.
Proof.
  rewrite (learn_style_eq (learn_style self t now1 data1 user_id)).
  rewrite (get_profile_after_learning self t now1 t1).
  rewrite !learn_style_eq. simpl. rewrite insert_insert_eq.
  unfold learned, merge_style. simpl. by rewrite foldl_app.
Qed.

(** X16: preferences and style are independent: updating a preference after
    learning a style gives the same engine as learning the style after
    updating the preference, when the first call of either order reads the
    same creation time and the last call of either order the same
    [last_updated]; the clock readings in between do not matter. *)
Theorem update_preference_learn_style_commute self t now t1 now1 t2 now2
    key value style_data user_id :
  update_preference (learn_style self t now1 style_data user_id) t1 now
    key value user_id
  = learn_style (update_preference self t now2 key value user_id) t2 now
      style_data user_id.
Proof.
  rewrite (update_preference_eq (learn_style self t now1 style_data user_id)).
  rewrite (learn_style_eq (update_preference self t now2 key value user_id)).
  rewrite (get_profile_after_learning self t now1 t1).
  rewrite (get_profile_after_update self t now2 t2).
  rewrite learn_style_eq, update_preference_eq. simpl.
  by rewrite !insert_insert_eq.
Qed.

End Engine.

(** ** A run on exact numbers *)

Definition example_engine : PersonalizationEngine (num := Q) :=
  init None None
    {[ "default" := {| created := "2024-01-01T00:00:00"; preferences := ∅;
                       style := {[ "verbosity" := (1 # 2)%Q ]};
                       constitution := Py.VNone; learning_data := [];
                       last_updated := None |} ]}.

Definition example_style_data : list (string * Q) :=
  [("verbosity", 1%Q); ("formality", (1 # 4)%Q)].

Example learn_style_known_key :
  style_of (learn_style example_engine "t" "u" example_style_data None) None
    !! "verbosity"
  = Some ((1 # 2) * (1 - (1 # 10)) + 1 * (1 # 10))%Q.
Proof. vm_compute. reflexivity. Qed.

Example learn_style_new_key :
  style_of (learn_style example_engine "t" "u" example_style_data None) None
    !! "formality"
  = Some (1 # 4)%Q.
Proof. vm_compute. reflexivity. Qed.

Example learn_style_new_user :
  style_of (learn_style example_engine "t" "u" example_style_data (Some "ann"))
    (Some "ann")
  = {[ "verbosity" := 1%Q; "formality" := (1 # 4)%Q ]}.
Proof. vm_compute. reflexivity. Qed.

(** The default user of [example_engine] learns [example_style_data]. *)
Lemma learn_style_blends_witness :
  (∀ key value, (key, value) ∈ example_style_data →
     style_of (learn_style example_engine "t" "u" example_style_data None) None
       !! key
     = Some (match style_of example_engine None !! key with
             | Some old =>
                 add (mul old (sub (literal 1) (learning_rate example_engine)))
                   (mul value (learning_rate example_engine))
             | None => value
             end)) ∧
  (∀ key, key ∉ example_style_data.*1 →
     style_of (learn_style example_engine "t" "u" example_style_data None) None
       !! key
     = style_of example_engine None !! key).
Proof.
  apply (learn_style_blends example_engine "t" "u" example_style_data None).
  apply (bool_decide_unpack _). vm_compute. exact I.
Defined.

(** A user without profile learns [example_style_data]. *)
Lemma learn_style_first_time_witness :
  style_of (learn_style example_engine "t" "u" example_style_data (Some "ann"))
    (Some "ann")
  = list_to_map example_style_data.
Proof.
  apply (learn_style_first_time example_engine "t" "u" example_style_data
           (Some "ann")).
  - reflexivity.
  - apply (bool_decide_unpack _). vm_compute. exact I.
Defined.

Example learn_style_new_user_times :
  (λ p, (created p, last_updated p))
    <$> profiles
          (learn_style example_engine "09:00" "09:01" example_style_data
             (Some "ann")) !! "ann"
  = Some ("09:00", Some "09:01").
Proof. vm_compute. reflexivity. Qed.

Example learn_style_twice :
  style_of
    (learn_style (learn_style example_engine "t" "u" example_style_data None)
       "v" "w" example_style_data None) None
  !! "formality"
  = Some ((1 # 4) * (1 - (1 # 10)) + (1 # 4) * (1 # 10))%Q.
Proof. vm_compute. reflexivity. Qed.

End Personalization.

(* ===================================================================== *)
(** * AthenaBrain: the main interface, and the command line *)
(* ===================================================================== *)

Module Core.

(** The configuration that [_load_config] returns when there is no
    configuration file. *)
Definition default_config : Py.value :=
  Py.VDict
    [("memory",
      Py.VDict [("qdrant_url", Py.VStr "http://localhost:6333");
                ("collection_name", Py.VStr "athena_memories")]);
     ("evolution",
      Py.VDict [("auto_track", Py.VBool true);
                ("rule_threshold", Py.VInt 2)]);
     ("personalization",
      Py.VDict [("enable_mkm12", Py.VBool true);
                ("learning_rate", Py.VFloat (1 # 10))])].

(** [_load_config]: [file] is [None] when the configuration file does not
    exist; otherwise it is the outcome of opening it and of
    [yaml.safe_load], which raises on an unreadable file or a malformed
    document and returns any value, not only a mapping.  (A mapping is
    modelled with string keys.) *)
Definition _load_config (file : option (Py.outcome Py.value))
    : Py.outcome Py.value :=
  match file with
  | Some loaded =>
      document ← loaded;
      Py.Ret (if Py.truthy document then document else Py.VDict [])
  | None => Py.Ret default_config
  end.

(** Line 46 of [__init__]:
    [qdrant_url or self.config.get('memory', {}).get('qdrant_url', ...)].
    The configuration is looked at only when the argument is [None] or
    empty. *)
Definition resolve_qdrant_url (qdrant_url : option string)
    (config : Py.value) : Py.outcome Py.value :=
  let from_config :=
    memory ← Py.call_get config "memory" (Py.VDict []);
    Py.call_get memory "qdrant_url" (Py.VStr "http://localhost:6333") in
  match qdrant_url with
  | Some url => if decide (url = "") then from_config else Py.Ret (Py.VStr url)
  | None => from_config
  end.

(** The first statements of [__init__]: the configuration is loaded, then
    the URL of the vector database is resolved. *)
Definition configured_qdrant_url (file : option (Py.outcome Py.value))
    (qdrant_url : option string) : Py.outcome Py.value :=
  config ← _load_config file;
  resolve_qdrant_url qdrant_url config.

(** An [AthenaBrain] after [__init__]: the loaded configuration and the
    three components.  The engine stands for [EvolutionEngine(config =
    self.config.get('evolution', {}))]. *)
Record AthenaBrain := mkAthenaBrain {
  config : Py.value;
  memory : Memory.MemoryManager;
  evolution : Evolution.Config;
  personalization : Personalization.PersonalizationEngine (num := Q)
}.

Section Facade.

Variable derive_rule_id : string → string → string.
Variable compose_rule_text : string → string → string → nat → string.

(** The call that [AthenaBrain.track_mistake] forwards to the engine:
    [category] and [threshold] are always passed on, with the defaults
    ["general"] and [2] of the facade's own signature when its caller omits
    them. *)
Definition track_mistake_request (self : AthenaBrain)
    (pattern description solution : string) (category : option string)
    (threshold : option Z) : Evolution.Call :=
  let category := default "general" category in
  let threshold := default 2 threshold in
  Evolution.request (evolution self) pattern description solution
    (Some category) (Some threshold).

Definition track_mistake (self : AthenaBrain)
    (disk : option Evolution.EvolutionState) (env : Evolution.Env)
    (pattern description solution : string) (category : option string)
    (threshold : option Z)
    : option Evolution.EvolutionState * Evolution.Outcome :=
  Evolution.track_mistake derive_rule_id compose_rule_text disk env
    (track_mistake_request self pattern description solution category
       threshold).

(** The [track-mistake] command of [main]: [--category] defaults to
    ["general"], and no threshold is passed. *)
Definition main_track_mistake (self : AthenaBrain)
    (disk : option Evolution.EvolutionState) (env : Evolution.Env)
    (pattern description solution : string) (category : option string)
    : option Evolution.EvolutionState * Evolution.Outcome :=
  track_mistake self disk env pattern description solution
    (Some (default "general" category)) None.

Lemma omitted_threshold_is_two self pattern description solution category :
  Evolution.call_threshold
    (track_mistake_request self pattern description solution category None)
  = 2.
Proof. reflexivity. Qed.

End Facade.

(** ** Where the URL of the vector database comes from *)

(** X17: in [__init__], an exception raised while the configuration file is
    read propagates.  Once the configuration is loaded, a non-empty
    [qdrant_url] argument is used as it is and the configuration is not
    consulted, whatever it holds.  Without such an argument the URL is
    [http://localhost:6333] when the file is missing, the document is
    empty, or the document is a mapping without [memory]; it is the
    [qdrant_url] entry of [memory], or that default, when [memory] is a
    mapping; and an [AttributeError] is raised when [memory] is present but
    not a mapping (such as [memory:] left empty) or when the document itself
    is not a mapping. *)
Theorem qdrant_url_resolution file qdrant_url :
  let fallback := Py.VStr "http://localhost:6333" in
  (∀ e, file = Some (Py.Raise e) →
        configured_qdrant_url file qdrant_url = Py.Raise e) ∧
  (∀ url config, qdrant_url = Some url → url ≠ "" →
        _load_config file = Py.Ret config →
        configured_qdrant_url file qdrant_url = Py.Ret (Py.VStr url)) ∧
  (qdrant_url = None ∨ qdrant_url = Some "" →
     (file = None →
        configured_qdrant_url file qdrant_url = Py.Ret fallback) ∧
     (∀ document, file = Some (Py.Ret document) →
        Py.truthy document = false →
        configured_qdrant_url file qdrant_url = Py.Ret fallback) ∧
     (∀ d, file = Some (Py.Ret (Py.VDict d)) →
        Py.dict_get d "memory" = None →
        configured_qdrant_url file qdrant_url = Py.Ret fallback) ∧
     (∀ d m, file = Some (Py.Ret (Py.VDict d)) →
        Py.dict_get d "memory" = Some (Py.VDict m) →
        configured_qdrant_url file qdrant_url
        = Py.Ret (Py.get m "qdrant_url" fallback)) ∧
     (∀ d v, file = Some (Py.Ret (Py.VDict d)) →
        Py.dict_get d "memory" = Some v → Py.is_dict v = false →
        configured_qdrant_url file qdrant_url
        = Py.Raise
            (Py.mkException "AttributeError"
               ("'" +:+ Py.type_name v
                +:+ "' object has no attribute 'get'"))) ∧
     (∀ document, file = Some (Py.Ret document) →
        Py.truthy document = true → Py.is_dict document = false →
        configured_qdrant_url file qdrant_url
        = Py.Raise
            (Py.mkException "AttributeError"
               ("'" +:+ Py.type_name document
                +:+ "' object has no attribute 'get'")))).
Proof.
  intros fallback. unfold configured_qdrant_url, _load_config.
  split; [by intros e ->|]. split.
  - intros url config -> Hne Hload. rewrite Hload. simpl.
    unfold resolve_qdrant_url. by destruct (decide (url = "")).
  - intros Hnone.
    assert (∀ config,
              resolve_qdrant_url qdrant_url config
              = (memory ← Py.call_get config "memory" (Py.VDict []);
                 Py.call_get memory "qdrant_url" fallback)) as Hres.
    { intros config. by destruct Hnone as [-> | ->]. }
    split; [by intros ->; simpl; rewrite Hres|].
    split.
    { intros document -> Hfalsy. simpl. by rewrite Hfalsy, Hres. }
    split.
    { intros d -> Hmem. simpl. rewrite Hres.
      destruct d as [|kv d]; simpl; [done|].
      unfold Py.get. by rewrite Hmem. }
    split.
    { intros d m -> Hmem. simpl. rewrite Hres.
      destruct d as [|kv d]; [done|]. simpl.
      unfold Py.get at 1. by rewrite Hmem. }
    split.
    { intros d v -> Hmem Hv. simpl. rewrite Hres.
      destruct d as [|kv d]; [done|]. simpl.
      unfold Py.get at 1. rewrite Hmem. simpl. by destruct v. }
    intros document -> Htruthy Hnodict. simpl. rewrite Htruthy, Hres.
    by destruct document.
Qed.

Example memory_section_left_empty :
  configured_qdrant_url
    (Some (Py.Ret (Py.VDict [("memory", Py.VNone)]))) None
  = Py.Raise
      (Py.mkException "AttributeError"
         "'NoneType' object has no attribute 'get'").
Proof. reflexivity. Qed.

Example memory_section_left_empty_with_url :
  configured_qdrant_url
    (Some (Py.Ret (Py.VDict [("memory", Py.VNone)])))
    (Some "http://qdrant:6333")
  = Py.Ret (Py.VStr "http://qdrant:6333").
Proof. reflexivity. Qed.

Example no_configuration_file :
  configured_qdrant_url None None = Py.Ret (Py.VStr "http://localhost:6333").
Proof. reflexivity. Qed.

(** ** A configuration that asks for three occurrences *)

Definition three_config : Py.value :=
  Py.VDict
    [("evolution",
      Py.VDict [("auto_track", Py.VBool true);
                ("rule_threshold", Py.VInt 3)])].

Definition three_brain : AthenaBrain :=
  {| config := three_config;
     memory := Memory.offline;
     evolution := {| Evolution.auto_track := Some true;
                     Evolution.rule_threshold := Some 3 |};
     personalization := Personalization.init None None ∅ |}.

(** C5: with [rule_threshold: 3] in the loaded configuration, the engine's
    configured threshold is 3, and an engine call that omits the threshold
    uses 3; yet a [track_mistake] of the facade that omits the threshold, as
    the command line does, forwards the threshold 2, and the second report
    of a pattern already generates its rule. *)
Theorem configured_threshold_is_shadowed :
  Evolution.configured_threshold (evolution three_brain) = 3 ∧
  Evolution.call_threshold
    (Evolution.request (evolution three_brain) "p1" "desc1" "fix1" None None)
  = 3 ∧
  Evolution.call_threshold
    (track_mistake_request three_brain "p1" "desc1" "fix1" None None) = 2 ∧
  let first :=
    main_track_mistake Evolution.example_rule_id Evolution.example_rule_text
      three_brain None (Evolution.at_time 10) "p1" "desc1" "fix1" None in
  let second :=
    main_track_mistake Evolution.example_rule_id Evolution.example_rule_text
      three_brain first.1 (Evolution.at_time 20) "p1" "desc2" "fix2" None in
  Evolution.summary first.2 = Some (true, false, 1%nat) ∧
  Evolution.summary second.2 = Some (true, true, 2%nat).
Proof. vm_compute. repeat split. Qed.

End Core.
